(** * Weather-predictor: the static grid environment and the results plotter

    A shallow embedding of [src/env.py] (class [StaticGridEnv]; [render]
    and [close] with their pygame calls as logged effects) and of
    [src/utils.py] ([plot_comparison_with_baseline], with the pandas lookups
    and matplotlib calls as logged effects).

    Python integers are [Z]; a tuple [(x, y)] is a pair; the attribute
    [self.state], which is [None] until [reset] runs, is an [option]; a raised
    exception is a value of [exn].  Mutation of [self] is explicit state
    passing: every method returns the object as it is after the call.  The
    module-level generator behind [np.random] is one global state that every
    environment of a process shares; it is threaded through explicitly. *)

From Stdlib Require Import ZArith List String Bool Lia.
Import ListNotations.
Open Scope Z_scope.

(** ** Python exceptions and results *)

Inductive exn : Type :=
| TypeError (msg : string)
| ValueError (msg : string)
| KeyError (key : string).

Inductive result (A : Type) : Type :=
| Ok (a : A)
| Raise (e : exn).
Arguments Ok {A} a.
Arguments Raise {A} e.

(** ** [src/env.py] *)

Module Env.

Definition pos : Type := (Z * Z)%type.

(** Equality of two-element tuples of integers ([==]). *)
Definition pos_eqb (p q : pos) : bool :=
  (fst p =? fst q) && (snd p =? snd q).

(** [p in l] for a Python list of tuples. *)
Fixpoint mem (p : pos) (l : list pos) : bool :=
  match l with
  | [] => false
  | q :: l' => pos_eqb p q || mem p l'
  end.

(** The [info] dictionary returned by [step]; the code only ever builds [{}]. *)
Definition info : Type := list (string * Z).

(** The attributes of a [StaticGridEnv] instance.  The pygame handles
    ([screen], the images, the font) carry no simulation state and are left
    out; [render_initialized] is kept. *)
Record StaticGridEnv : Type := mkEnv {
  grid_size : Z;
  cell_size : Z;
  obstacles : list pos;
  goal : pos;
  state : option pos;
  action_space : Z;
  observation_space : Z * Z;
  render_initialized : bool
}.

(** The attribute assignments of [__init__] (lines 17-40). *)
Definition fresh : StaticGridEnv :=
  let grid_size := 10 in
  {| grid_size := grid_size;
     cell_size := 64;
     obstacles := [(1, 1); (2, 2); (3, 3); (4, 4); (5, 5)];
     goal := (grid_size - 1, grid_size - 1);
     state := None;
     action_space := 4;
     observation_space := (grid_size, grid_size);
     render_initialized := false |}.

(** [self.state = p] *)
Definition set_state (self : StaticGridEnv) (p : pos) : StaticGridEnv :=
  {| grid_size := grid_size self;
     cell_size := cell_size self;
     obstacles := obstacles self;
     goal := goal self;
     state := Some p;
     action_space := action_space self;
     observation_space := observation_space self;
     render_initialized := render_initialized self |}.

(** What [step] returns: [(self.state, reward, done, {})]. *)
Definition step_out : Type := (pos * Z * bool * info)%type.

(** Lines 79-89 of [step]: the cell the action asks for, or the current cell
    when the action is not one of the four codes or would leave the grid. *)
Definition candidate (self : StaticGridEnv) (action : Z) (xy : pos) : pos :=
  let '(x, y) := xy in
  if (action =? 0) && (x >? 0) then (x - 1, y)
  else if (action =? 1) && (x <? grid_size self - 1) then (x + 1, y)
  else if (action =? 2) && (y >? 0) then (x, y - 1)
  else if (action =? 3) && (y <? grid_size self - 1) then (x, y + 1)
  else (x, y).

(** Lines 92-99 of [step]: the position that is stored, which is the current
    one when the candidate is an obstacle. *)
Definition landing (self : StaticGridEnv) (action : Z) (p : pos) : pos :=
  if mem (candidate self action p) (obstacles self) then p
  else candidate self action p.

(** [StaticGridEnv.step].  Unpacking [self.state] raises [TypeError] when it
    is still [None]; nothing has been assigned by then. *)
Definition step (self : StaticGridEnv) (action : Z)
  : result step_out * StaticGridEnv :=
  match state self with
  | None =>
      (Raise (TypeError "cannot unpack non-iterable NoneType object"), self)
  | Some (x, y) =>
      let '(next_x, next_y) := candidate self action (x, y) in
      let '(next_x, next_y, reward) :=
        if mem (next_x, next_y) (obstacles self)
        then (x, y, -5)
        else (next_x, next_y, -1) in
      let self := set_state self (next_x, next_y) in
      if pos_eqb (next_x, next_y) (goal self)
      then (Ok ((next_x, next_y), 20, true, []), self)
      else (Ok ((next_x, next_y), reward, false, []), self)
  end.

(** The calls a training loop makes on one environment, and what it sees. *)
Inductive call : Type :=
| Reset
| Step (action : Z).

Inductive observed : Type :=
| ResetReturned (p : pos)
| StepReturned (r : result step_out).

Section WithRandomSource.

(** numpy's global generator is not part of the repository: its state type,
    [np.random.seed] and [np.random.randint(low, high)] are parameters.
    Seeds that numpy itself rejects are outside the model. *)
Variable rng : Type.
Variable np_seed : Z -> rng.
Variable randint : Z -> Z -> rng -> Z * rng.

(** [StaticGridEnv.__init__]: assigns the attributes of [fresh] and, when a
    seed is given, re-seeds the global generator. *)
Definition __init__ (seed : option Z) (g : rng) : StaticGridEnv * rng :=
  (fresh, match seed with Some s => np_seed s | None => g end).

(** [StaticGridEnv.reset].  The [while True] loop is unrolled at most [fuel]
    times; [None] means the loop is still running after [fuel] rejected
    pairs.  On success the returned position is [self.state]. *)
Fixpoint reset (fuel : nat) (self : StaticGridEnv) (g : rng)
  : option (pos * StaticGridEnv * rng) :=
  match fuel with
  | O => None
  | S fuel' =>
      let '(start_x, g) := randint 0 (grid_size self) g in
      let '(start_y, g) := randint 0 (grid_size self) g in
      if negb (mem (start_x, start_y) (obstacles self))
         && negb (pos_eqb (start_x, start_y) (goal self))
      then (let self := set_state self (start_x, start_y) in
            Some ((start_x, start_y), self, g))
      else reset fuel' self g
  end.

(** A caller driving one environment: each call acts on the object and on
    the global generator; the observations are collected in order. *)
Fixpoint run (fuel : nat) (self : StaticGridEnv) (g : rng) (cs : list call)
  : option (list observed * StaticGridEnv * rng) :=
  match cs with
  | [] => Some ([], self, g)
  | Reset :: cs' =>
      match reset fuel self g with
      | None => None
      | Some (p, self, g) =>
          match run fuel self g cs' with
          | None => None
          | Some (os, self, g) => Some (ResetReturned p :: os, self, g)
          end
      end
  | Step a :: cs' =>
      let '(r, self) := step self a in
      match run fuel self g cs' with
      | None => None
      | Some (os, self, g) => Some (StepReturned r :: os, self, g)
      end
  end.

(** Construct an environment with [seed], then drive it with [cs]. *)
Definition session (fuel : nat) (seed : option Z) (cs : list call) (g : rng)
  : option (list observed * StaticGridEnv * rng) :=
  let '(self, g) := __init__ seed g in
  run fuel self g cs.

(** Two environments alive in one process: both are constructed first (the
    second constructor re-seeds the shared generator), then the first is
    driven by [cs] and after it the second. *)
Definition side_by_side (fuel : nat) (seed : option Z) (cs : list call)
  (g : rng) : option (list observed * list observed) :=
  let '(env1, g) := __init__ seed g in
  let '(env2, g) := __init__ seed g in
  match run fuel env1 g cs with
  | None => None
  | Some (os1, _, g) =>
      match run fuel env2 g cs with
      | None => None
      | Some (os2, _, _) => Some (os1, os2)
      end
  end.

(** Two environments used one after the other: the second is constructed
    only when the first has been driven. *)
Definition one_after_another (fuel : nat) (seed : option Z) (cs : list call)
  (g : rng) : option (list observed * list observed) :=
  match session fuel seed cs g with
  | None => None
  | Some (os1, _, g) =>
      match session fuel seed cs g with
      | None => None
      | Some (os2, _, _) => Some (os1, os2)
      end
  end.

(** *** The random stream as [reset] sees it *)

(** One coordinate pair: two draws, row first. *)
Definition sample (self : StaticGridEnv) (g : rng) : pos * rng :=
  let '(x, g) := randint 0 (grid_size self) g in
  let '(y, g) := randint 0 (grid_size self) g in
  ((x, y), g).

(** The generator after [k] pairs have been drawn. *)
Fixpoint skip (self : StaticGridEnv) (k : nat) (g : rng) : rng :=
  match k with
  | O => g
  | S k' => skip self k' (snd (sample self g))
  end.

(** The [k]-th pair of the stream that starts at [g] (counting from 0). *)
Definition nth_sample (self : StaticGridEnv) (k : nat) (g : rng) : pos :=
  fst (sample self (skip self k g)).

(** Neither an obstacle nor the goal. *)
Definition free (self : StaticGridEnv) (p : pos) : bool :=
  negb (mem p (obstacles self)) && negb (pos_eqb p (goal self)).

(** Pair [k] is the first free pair of the stream. *)
Definition first_free (self : StaticGridEnv) (g : rng) (k : nat) : Prop :=
  free self (nth_sample self k g) = true /\
  forall j, (j < k)%nat -> free self (nth_sample self j g) = false.

(** The contract of [np.random.randint(low, high)]: a value of [low, high). *)
Definition randint_in_range : Prop :=
  forall low high g, low < high ->
    low <= fst (randint low high g) < high.

End WithRandomSource.

(** *** Vocabulary of the specification *)

Definition obstacle_set : list pos := [(1, 1); (2, 2); (3, 3); (4, 4); (5, 5)].
Definition goal_cell : pos := (9, 9).

(** The layout every constructed environment has. *)
Definition configured (self : StaticGridEnv) : Prop :=
  grid_size self = 10 /\ obstacles self = obstacle_set /\
  goal self = goal_cell.

Definition in_grid (p : pos) : Prop :=
  0 <= fst p < 10 /\ 0 <= snd p < 10.

(** Every attribute but [state] is the same in [self] and [self']. *)
Definition same_but_state (self self' : StaticGridEnv) : Prop :=
  grid_size self' = grid_size self /\
  cell_size self' = cell_size self /\
  obstacles self' = obstacles self /\
  goal self' = goal self /\
  action_space self' = action_space self /\
  observation_space self' = observation_space self /\
  render_initialized self' = render_initialized self.

(** The position moved one cell the way the action code says:
    0 = up (row - 1), 1 = down (row + 1), 2 = left (col - 1),
    3 = right (col + 1). *)
Definition moved_one_cell (action : Z) (p p' : pos) : Prop :=
  (action = 0 /\ p' = (fst p - 1, snd p)) \/
  (action = 1 /\ p' = (fst p + 1, snd p)) \/
  (action = 2 /\ p' = (fst p, snd p - 1)) \/
  (action = 3 /\ p' = (fst p, snd p + 1)).

(** The outcomes of one [step] from [p] to [p'] with reward [r]. *)
Definition obstacle_blocked (p p' : pos) (r : Z) : Prop :=
  p' = p /\ r = -5.
Definition boundary_blocked (p p' : pos) (r : Z) : Prop :=
  p' = p /\ r = -1.
Definition moved (action : Z) (p p' : pos) (r : Z) : Prop :=
  moved_one_cell action p p' /\ r = -1.
Definition reached_goal (action : Z) (p p' : pos) (r : Z) : Prop :=
  moved_one_cell action p p' /\ p' = goal_cell /\ r = 20.

Fixpoint none_of (l : list Prop) : Prop :=
  match l with
  | [] => True
  | P :: l' => ~ P /\ none_of l'
  end.

Fixpoint exactly_one (l : list Prop) : Prop :=
  match l with
  | [] => False
  | P :: l' => (P /\ none_of l') \/ (~ P /\ exactly_one l')
  end.

(** An environment standing at [p], for the examples. *)
Definition at_cell (p : pos) : StaticGridEnv := set_state fresh p.

End Env.

(** ** A concrete random source for the examples

    numpy's generator is not modelled.  This linear congruential generator
    has the same interface and keeps [randint]'s range contract. *)

Module Lcg.

Definition rng : Type := Z.

Definition next (g : rng) : rng := (1103515245 * g + 12345) mod 2147483648.

Definition np_seed (s : Z) : rng := s mod 2147483648.

Definition randint (low high : Z) (g : rng) : Z * rng :=
  let g' := next g in
  (low + (g' / 65536) mod (high - low), g').

End Lcg.

(** ** numpy's legacy generator

    What [np.random.seed] and [np.random.randint] run: the Mersenne Twister
    MT19937, seeded as numpy's [mt19937_seed] does for an integer seed, and
    bounded integers drawn by masked rejection on its 32-bit outputs.  It
    is not part of the repository; it instantiates the parameters where an
    example needs the values numpy really hands out
    ([seed(1)] then ten [randint(0, 10)]: 5 8 9 5 0 0 1 7 6 9). *)

Module NumpyRandom.

(** The 624 words of the state and the position of the next one. *)
Record rng : Type := mkState { key : list Z; pos : nat }.

Definition word (z : Z) : Z := Z.land z 4294967295.

(** [mt19937_seed]: key[pos] = seed, then
    seed = (1812433253 * (seed ^ (seed >> 30)) + pos + 1) & 0xffffffff. *)
Fixpoint seed_loop (n : nat) (pos seed : Z) : list Z :=
  match n with
  | O => []
  | S n' =>
      seed ::
      seed_loop n' (pos + 1)
        (word (1812433253 * Z.lxor seed (Z.shiftr seed 30) + pos + 1))
  end.

(** [np.random.seed(seed)] for an integer seed in [0, 2^32). *)
Definition np_seed (seed : Z) : rng :=
  {| key := seed_loop 624 0 (word seed); pos := 624 |}.

(** One word of [mt19937_gen], updating the key in place:
    y = (key[i] & 0x80000000) | (key[i+1] & 0x7fffffff),
    key[i] = key[i+397] ^ (y >> 1) ^ (y odd ? 0x9908b0df : 0),
    indices taken modulo 624. *)
Definition twist (key : list Z) (i : nat) : list Z :=
  let y :=
    Z.lor (Z.land (nth i key 0) 2147483648)
      (Z.land (nth ((i + 1) mod 624) key 0) 2147483647) in
  let v :=
    Z.lxor (Z.lxor (nth ((i + 397) mod 624) key 0) (Z.shiftr y 1))
      (if Z.odd y then 2567483615 else 0) in
  firstn i key ++ v :: skipn (S i) key.

Definition mt19937_gen (g : rng) : rng :=
  {| key := fold_left twist (seq 0 624) (key g); pos := 0 |}.

(** The next 32-bit output, tempered. *)
Definition next_uint32 (g : rng) : Z * rng :=
  let g := if Nat.eqb (pos g) 624 then mt19937_gen g else g in
  let y := nth (pos g) (key g) 0 in
  let y := Z.lxor y (Z.shiftr y 11) in
  let y := Z.lxor y (Z.land (Z.shiftl y 7) 2636928640) in
  let y := Z.lxor y (Z.land (Z.shiftl y 15) 4022730752) in
  let y := Z.lxor y (Z.shiftr y 18) in
  (y, {| key := key g; pos := S (pos g) |}).

(** The smallest mask of the form 2^k - 1 that is at least [max]. *)
Definition gen_mask (max : Z) : Z := 2 ^ (Z.log2 max + 1) - 1.

(** Masked rejection: outputs are masked and drawn again while they exceed
    [max]; the loop is cut after [fuel] draws. *)
Fixpoint masked (fuel : nat) (max mask : Z) (g : rng) : Z * rng :=
  match fuel with
  | O => (0, g)
  | S fuel' =>
      let '(v, g) := next_uint32 g in
      let val := Z.land v mask in
      if val <=? max then (val, g) else masked fuel' max mask g
  end.

(** [np.random.randint(low, high)] for [low < high]. *)
Definition randint (low high : Z) (g : rng) : Z * rng :=
  let max := high - 1 - low in
  if max =? 0 then (low, g)
  else
    let '(val, g) := masked 4096 max (gen_mask max) g in
    (low + val, g).

(** [n] successive [randint(low, high)]. *)
Fixpoint randints (n : nat) (low high : Z) (g : rng) : list Z :=
  match n with
  | O => []
  | S n' => let '(v, g) := randint low high g in v :: randints n' low high g
  end.

End NumpyRandom.

(** ** The random stream across a run *)

Module Stream.

Import Env.

(** The positions that the [reset] calls of a run returned, in order. *)
Fixpoint resets_of (os : list observed) : list pos :=
  match os with
  | [] => []
  | ResetReturned p :: os' => p :: resets_of os'
  | StepReturned _ :: os' => resets_of os'
  end.

Section WithRandomSource.

Variable rng : Type.
Variable randint : Z -> Z -> rng -> Z * rng.

(** The pairs number [i], ..., [i + n - 1] of the stream that starts at
    [g]. *)
Definition pairs (self : StaticGridEnv) (g : rng) (i n : nat) : list pos :=
  map (fun k => nth_sample rng randint self k g) (seq i n).

(** The free ones among them, in order. *)
Definition free_pairs (self : StaticGridEnv) (g : rng) (i n : nat)
  : list pos :=
  filter (free self) (pairs self g i n).

(** The streams that start at [g] and at [h] hand out the same first [n]
    pairs. *)
Definition same_pairs (self : StaticGridEnv) (g h : rng) (n : nat) : Prop :=
  forall i, (i < n)%nat ->
    nth_sample rng randint self i h = nth_sample rng randint self i g.

End WithRandomSource.

End Stream.

(** ** [src/utils.py] *)

Module Utils.

Section WithValues.

(** Table cells, the availability level and the baselines are Python floats;
    the function only compares them, so their type and [==] are parameters. *)
Variable value : Type.
Variable value_eqb : value -> value -> bool.

(** A [pd.DataFrame]: its columns in order, each with one cell per row. *)
Definition DataFrame : Type := list (string * list value).

(** What the function does to the outside world, in program order. *)
Inductive effect : Type :=
| ReadColumn (name : string)
| Chart (call : string)
| PlotLine (axis : string) (xs ys : list value)
| PlotBaseline (axis : string) (v : value)
| Ticks (xs : list value).

(** Computations that log their effects and may raise. *)
Definition M (A : Type) : Type := (list effect * result A)%type.

Definition ret {A : Type} (a : A) : M A := ([], Ok a).
Definition raise {A : Type} (e : exn) : M A := ([], Raise e).
Definition emit (e : effect) : M unit := ([e], Ok tt).

Definition bind {A B : Type} (m : M A) (k : A -> M B) : M B :=
  match m with
  | (log, Ok a) => let '(log', r) := k a in (log ++ log', r)
  | (log, Raise e) => (log, Raise e)
  end.

Notation "x <- m ;; k" := (bind m (fun x => k))
  (at level 61, m at next level, right associativity).
Notation "m ;; k" := (bind m (fun _ => k))
  (at level 61, right associativity).

Fixpoint lookup (name : string) (df : DataFrame) : option (list value) :=
  match df with
  | [] => None
  | (n, col) :: df' => if (n =? name)%string then Some col else lookup name df'
  end.

(** [df[name]]: the column, or [KeyError] when the table has none. *)
Definition getitem (df : DataFrame) (name : string) : M (list value) :=
  emit (ReadColumn name) ;;
  match lookup name df with
  | Some col => ret col
  | None => raise (KeyError name)
  end.

Definition isin (v : value) (l : list value) : bool :=
  existsb (value_eqb v) l.

(** [Series.unique()]: the distinct values in order of first appearance. *)
Fixpoint unique (l : list value) : list value :=
  match l with
  | [] => []
  | v :: l' => v :: filter (fun w => negb (value_eqb v w)) (unique l')
  end.

(** The rows of a column that a boolean mask keeps. *)
Fixpoint keep (mask : list bool) (col : list value) : list value :=
  match mask, col with
  | b :: mask', v :: col' => if b then v :: keep mask' col' else keep mask' col'
  | _, _ => []
  end.

(** [df.loc[mask].copy()] *)
Definition loc (df : DataFrame) (mask : list bool) : DataFrame :=
  map (fun '(n, col) => (n, keep mask col)) df.

(** [plot_comparison_with_baseline].  The label check comes first; pandas
    lookups and matplotlib calls follow in the order of the source. *)
Definition plot_comparison_with_baseline
  (availability : value) (df_learning : DataFrame)
  (baseline_learning : value * value * value)
  (accuracies : option (list value)) (algorithm : string) : M unit :=
  checked <-
    (if (algorithm =? "Q-learning")%string || (algorithm =? "SARSA")%string
     then ret (df_learning, baseline_learning)
     else raise (ValueError
                   "Algorithm must be either 'Q-learning' or 'SARSA'")) ;;
  let '(df, (baseline_reward, baseline_success_rate,
             baseline_learning_speed)) := checked in
  accuracies <-
    match accuracies with
    | None => col <- getitem df "Accuracy" ;; ret (unique col)
    | Some l => ret l
    end ;;
  avail <- getitem df "Availability" ;;
  acc <- getitem df "Accuracy" ;;
  let selected_data :=
    loc df (map (fun '(a, c) => value_eqb a availability && isin c accuracies)
              (combine avail acc)) in
  emit (Chart "plt.subplots") ;;
  emit (Chart "ax1.set_xlabel") ;;
  emit (Chart "ax1.set_ylabel") ;;
  xs <- getitem selected_data "Accuracy" ;;
  ys <- getitem selected_data "Avg Reward" ;;
  emit (PlotLine "ax1" xs ys) ;;
  emit (PlotBaseline "ax1" baseline_reward) ;;
  emit (Chart "ax1.tick_params") ;;
  xs <- getitem selected_data "Accuracy" ;;
  emit (Ticks xs) ;;
  emit (Chart "ax1.twinx") ;;
  emit (Chart "ax2.set_ylabel") ;;
  xs <- getitem selected_data "Accuracy" ;;
  ys <- getitem selected_data "Success Rate (%)" ;;
  emit (PlotLine "ax2" xs ys) ;;
  emit (PlotBaseline "ax2" baseline_success_rate) ;;
  emit (Chart "ax2.tick_params") ;;
  emit (Chart "ax1.twinx") ;;
  emit (Chart "ax3.spines.set_position") ;;
  emit (Chart "ax3.set_ylabel") ;;
  xs <- getitem selected_data "Accuracy" ;;
  ys <- getitem selected_data "Avg Learning Speed" ;;
  emit (PlotLine "ax3" xs ys) ;;
  emit (PlotBaseline "ax3" baseline_learning_speed) ;;
  emit (Chart "ax3.tick_params") ;;
  emit (Chart "fig.suptitle") ;;
  emit (Chart "ax1.grid") ;;
  emit (Chart "fig.legend") ;;
  emit (Chart "fig.tight_layout") ;;
  emit (Chart "plt.show").

(** The label is one of the two the function accepts. *)
Definition known_algorithm (algorithm : string) : Prop :=
  algorithm = "Q-learning"%string \/ algorithm = "SARSA"%string.

(** The exception the label check raises. *)
Definition is_ValueError (r : result unit) : Prop :=
  exists msg, r = Raise (ValueError msg).

(** A computation that may fail, but not with [ValueError]. *)
Definition no_ValueError {A : Type} (m : M A) : Prop :=
  forall msg, snd m <> Raise (ValueError msg).

(** The columns the function reads. *)
Definition required_columns : list string :=
  ["Availability"; "Accuracy"; "Avg Reward"; "Success Rate (%)";
   "Avg Learning Speed"]%string.

(** The rows [df.loc] keeps: availability as asked, accuracy among those
    asked for. *)
Definition row_mask (availability : value) (accuracies : list value)
  (avail acc : list value) : list bool :=
  map (fun '(a, c) => value_eqb a availability && isin c accuracies)
    (combine avail acc).

(** The rows whose availability is the one asked for. *)
Definition availability_mask (availability : value)
  (avail acc : list value) : list bool :=
  map (fun '(a, _) => value_eqb a availability) (combine avail acc).

(** The computation returns a value. *)
Definition returns {A : Type} (m : M A) : Prop :=
  exists a, snd m = Ok a.

(** The computation raises. *)
Definition raises {A : Type} (m : M A) : Prop :=
  exists e, snd m = Raise e.

(** If the computation raises, it is [KeyError] for a required column that
    the table lacks. *)
Definition raises_only_missing {A : Type} (df : DataFrame) (m : M A) : Prop :=
  forall e, snd m = Raise e ->
    exists c, e = KeyError c /\ In c required_columns /\ lookup c df = None.

(** [plt.show()] has not been called, or the computation returned. *)
Definition shown_only_on_return {A : Type} (m : M A) : Prop :=
  In (Chart "plt.show") (fst m) -> returns m.

Definition not_shown {A : Type} (m : M A) : Prop :=
  ~ In (Chart "plt.show") (fst m).

(** [value_eqb] behaves as an equality (no cell is a NaN). *)
Definition eqb_equivalence : Prop :=
  (forall v, value_eqb v v = true) /\
  (forall v w, value_eqb v w = true -> value_eqb w v = true) /\
  (forall u v w, value_eqb u v = true -> value_eqb v w = true ->
                 value_eqb u w = true).

End WithValues.

(** A run table with integer cells, for the examples. *)
Definition sample_table : DataFrame Z :=
  [("Availability"%string, [8; 8; 5]);
   ("Accuracy"%string, [1; 2; 1]);
   ("Avg Reward"%string, [10; 20; 30]);
   ("Success Rate (%)"%string, [50; 60; 70]);
   ("Avg Learning Speed"%string, [3; 4; 5])].

End Utils.

(** ** Callers of [step]: episodes *)

Module Walk.

Import Env.

(** A training loop calling [step] once per action, keeping what each call
    returned. *)
Fixpoint steps (self : StaticGridEnv) (actions : list Z)
  : list (result step_out) * StaticGridEnv :=
  match actions with
  | [] => ([], self)
  | a :: actions' =>
      let '(r, self) := step self a in
      let '(rs, self) := steps self actions' in
      (r :: rs, self)
  end.

(** The done flag of a returned result; a raised exception ends nothing. *)
Definition finished (r : result step_out) : bool :=
  match r with
  | Ok (_, _, d, _) => d
  | Raise _ => false
  end.

(** The reward of a returned result. *)
Definition reward_of (r : result step_out) : Z :=
  match r with
  | Ok (_, r, _, _) => r
  | Raise _ => 0
  end.

(** Distance in moves between two cells. *)
Definition manhattan (p q : pos) : Z :=
  Z.abs (fst p - fst q) + Z.abs (snd p - snd q).

(** The action code that undoes a move: up/down and left/right swap. *)
Definition opposite (action : Z) : Z :=
  if action =? 0 then 1
  else if action =? 1 then 0
  else if action =? 2 then 3
  else 2.

(** A way to the goal: down while the cell below is free and the last row
    is not reached, otherwise right. *)
Definition toward_goal (p : pos) : Z :=
  let '(x, y) := p in
  if (x <? 9) && negb (mem (x + 1, y) obstacle_set) then 1 else 3.

Fixpoint route (n : nat) (p : pos) : list Z :=
  match n with
  | O => []
  | S n' =>
      let a := toward_goal p in
      a :: route n' (landing fresh a p)
  end.

(** The hundred cells of the grid, row by row. *)
Definition cells : list pos :=
  list_prod (map Z.of_nat (seq 0 10)) (map Z.of_nat (seq 0 10)).

(** The sum of the rewards a caller collected. *)
Definition total_reward (rs : list (result step_out)) : Z :=
  fold_right (fun r acc => reward_of r + acc) 0 rs.

(** [route] checked on one start cell: it has as many actions as the cell
    is moves away from the goal, it ends on the goal with done set by the
    last call and by no earlier one, and it collects 21 minus the distance. *)
Definition route_ok (p : pos) : bool :=
  let n := Z.to_nat (manhattan p goal_cell) in
  let '(rs, self) := steps (at_cell p) (route n p) in
  match state self with
  | Some q => pos_eqb q goal_cell
  | None => false
  end
  && (Z.of_nat (List.length rs) =? manhattan p goal_cell)
  && negb (existsb finished (removelast rs))
  && finished (last rs (Ok (p, 0, true, [])))
  && (total_reward rs =? 21 - manhattan p goal_cell).

(** A cell an agent may stand on: inside the grid and no obstacle. *)
Definition safe (p : pos) : Prop :=
  in_grid p /\ mem p obstacle_set = false.

(** An observation a caller may rely on: a returned position that is safe,
    and no exception. *)
Definition observed_safe (o : observed) : Prop :=
  match o with
  | ResetReturned p => safe p /\ p <> goal_cell
  | StepReturned (Ok (p, _, _, _)) => safe p
  | StepReturned (Raise _) => False
  end.

End Walk.

(** ** [StaticGridEnv.render] and [StaticGridEnv.close] *)

Module Render.

Import Env.

(** [self.render_initialized = b] *)
Definition set_render_initialized (self : StaticGridEnv) (b : bool)
  : StaticGridEnv :=
  {| grid_size := grid_size self;
     cell_size := cell_size self;
     obstacles := obstacles self;
     goal := goal self;
     state := state self;
     action_space := action_space self;
     observation_space := observation_space self;
     render_initialized := b |}.

(** [range(n)] *)
Definition range (n : Z) : list Z := map Z.of_nat (seq 0 (Z.to_nat n)).

(** What is drawn with [blit]. *)
Inductive sprite : Type :=
| AgentImage
| GoalImage
| ObstacleImage
| Overlay
| TitleText.

(** How a call of [render] ends: it returns, an exception is raised in its
    own code, [pygame.image.load] fails on a file, or [quit()] ends the
    interpreter. *)
Inductive outcome : Type :=
| Returned
| Raised (e : exn)
| ImageLoadError (directory file : string)
| SystemExit.

(** The image files, in the order lines 144-148 load them. *)
Definition image_files : list string :=
  ["agent.png"; "goal.png"; "obstacle.png"]%string.

Section WithFloats.

(** The delay and the teacher's availability and accuracy are Python
    floats; [render] only passes them on. *)
Variable float : Type.

(** The parts of the title f-string: the episode number shown, and the
    availability and accuracy when both are given. *)
Record title : Type := mkTitle {
  episode_shown : Z;
  teacher : option (float * float)
}.

(** The pygame calls of [render] and [close], in program order. *)
Inductive effect : Type :=
| PygameInit
| SetMode (width height : Z)
| LoadImage (directory file : string)
| ScaleImage (what : sprite) (width height : Z)
| FontInit
| SysFont (name : string) (size : Z)
| EventGet
| PygameQuit
| Fill (r g b : Z)
| DrawRect (px py width height line : Z)
| Blit (what : sprite) (px py : Z)
| NewSurface (width height : Z)
| SetAlpha (alpha : Z)
| FillSurface (r g b : Z)
| RenderText (t : title)
| Flip
| Sleep (delay : float).

(** Lines 144-148: the loads, up to and with the first one that fails.
    [loadable directory file] tells whether pygame can load that file. *)
Fixpoint load_images (loadable : string -> string -> bool)
  (files : list string) : list effect * option string :=
  match files with
  | [] => ([], None)
  | file :: files' =>
      if loadable "images"%string file
      then
        let '(log, failed) := load_images loadable files' in
        (LoadImage "images" file :: log, failed)
      else ([LoadImage "images" file], Some file)
  end.

(** Lines 135-163: the one-time setup, with the file whose load failed, if
    one did; the calls after the loads are made only when all succeeded. *)
Definition setup (self : StaticGridEnv) (loadable : string -> string -> bool)
  : list effect * option string :=
  let total_height := grid_size self * cell_size self + 50 in
  let opening :=
    [PygameInit; SetMode (grid_size self * cell_size self) total_height] in
  match load_images loadable image_files with
  | (loads, Some file) => (opening ++ loads, Some file)
  | (loads, None) =>
      (opening ++ loads ++
       [ScaleImage AgentImage (cell_size self) (cell_size self);
        ScaleImage GoalImage (cell_size self) (cell_size self);
        ScaleImage ObstacleImage (cell_size self) (cell_size self);
        FontInit;
        SysFont "Arial" 20],
       None)
  end.

(** Lines 177-187: one outlined cell per row [x] and column [y]. *)
Definition grid_lines (self : StaticGridEnv) : list effect :=
  flat_map
    (fun x =>
       map (fun y =>
              DrawRect (y * cell_size self) (x * cell_size self + 50)
                (cell_size self) (cell_size self) 1)
         (range (grid_size self)))
    (range (grid_size self)).

(** Lines 190-200: the goal, then every obstacle. *)
Definition fixtures (self : StaticGridEnv) : list effect :=
  Blit GoalImage (snd (goal self) * cell_size self)
    (fst (goal self) * cell_size self + 50)
  :: map (fun obs =>
            Blit ObstacleImage (snd obs * cell_size self)
              (fst obs * cell_size self + 50))
       (obstacles self).

(** [StaticGridEnv.render].  [events] is what [pygame.event.get()] hands
    out, [true] standing for an event of type [QUIT].  A failed image load
    ends the call inside the setup, before [render_initialized] is
    assigned on line 165.  The other pygame calls are taken to succeed. *)
Definition render (self : StaticGridEnv)
  (loadable : string -> string -> bool) (events : list bool)
  (delay : float) (mode : string) (episode : Z) (learning_type : string)
  (availability accuracy : option float)
  : list effect * outcome * StaticGridEnv :=
  let '(log, failed, self) :=
    if render_initialized self then ([], None, self)
    else
      match setup self loadable with
      | (log, Some file) => (log, Some file, self)
      | (log, None) => (log, None, set_render_initialized self true)
      end in
  match failed with
  | Some file => (log, ImageLoadError "images" file, self)
  | None =>
      let log := log ++ [EventGet] in
      if existsb (fun quit => quit) events
      then (log ++ [PygameQuit], SystemExit, self)
      else
        let log :=
          log ++ [Fill 255 255 255] ++ grid_lines self ++ fixtures self in
        match state self with
        | None =>
            (log,
             Raised (TypeError "'NoneType' object is not subscriptable"),
             self)
        | Some st =>
            let title :=
              {| episode_shown := episode + 1;
                 teacher :=
                   match availability, accuracy with
                   | Some av, Some ac => Some (av, ac)
                   | _, _ => None
                   end |} in
            (log ++
             [Blit AgentImage (snd st * cell_size self)
                (fst st * cell_size self + 50);
              NewSurface (grid_size self * cell_size self) 50;
              SetAlpha 150;
              FillSurface 0 0 0;
              Blit Overlay 0 0;
              RenderText title;
              Blit TitleText 10 10;
              Flip;
              Sleep delay],
             Returned, self)
        end
  end.

(** [StaticGridEnv.close] *)
Definition close (self : StaticGridEnv) : list effect * StaticGridEnv :=
  if render_initialized self
  then ([PygameQuit], set_render_initialized self false)
  else ([], self).

(** Lines 203-229, the calls that follow the fixtures when the agent
    stands at [st]: agent, overlay, title, flip and sleep. *)
Definition agent_and_title (self : StaticGridEnv) (st : pos) (delay : float)
  (episode : Z) (availability accuracy : option float) : list effect :=
  [Blit AgentImage (snd st * cell_size self) (fst st * cell_size self + 50);
   NewSurface (grid_size self * cell_size self) 50;
   SetAlpha 150;
   FillSurface 0 0 0;
   Blit Overlay 0 0;
   RenderText
     {| episode_shown := episode + 1;
        teacher :=
          match availability, accuracy with
          | Some av, Some ac => Some (av, ac)
          | _, _ => None
          end |};
   Blit TitleText 10 10;
   Flip;
   Sleep delay].

(** The setup gets through: it has been done before, or every image
    loads. *)
Definition setup_succeeds (self : StaticGridEnv)
  (loadable : string -> string -> bool) : bool :=
  render_initialized self || forallb (loadable "images"%string) image_files.

(** The calls of the one-time setup. *)
Definition is_setup (e : effect) : bool :=
  match e with
  | PygameInit | SetMode _ _ | LoadImage _ _ | ScaleImage _ _ _
  | FontInit | SysFont _ _ => true
  | _ => false
  end.

(** The calls that put something on the screen. *)
Definition is_drawing (e : effect) : bool :=
  match e with
  | Fill _ _ _ | DrawRect _ _ _ _ _ | Blit _ _ _ | RenderText _ | Flip => true
  | _ => false
  end.

Definition is_flip (e : effect) : bool :=
  match e with
  | Flip => true
  | _ => false
  end.

Definition is_init (e : effect) : bool :=
  match e with
  | PygameInit => true
  | _ => false
  end.

(** A rectangle of the screen: left, top, width, height. *)
Definition rectangle : Type := (Z * Z * Z * Z)%type.

(** The rectangle a drawing call covers.  An outline covers the rectangle
    it is given; the pictures of agent, goal and obstacle have the size the
    setup scales them to, one cell; the overlay has the size it is created
    with.  The rendered title has the extent the font gives it, which is
    pygame's: it has no entry here. *)
Definition extent (self : StaticGridEnv) (e : effect) : option rectangle :=
  match e with
  | DrawRect px py width height _ => Some (px, py, width, height)
  | Blit AgentImage px py
  | Blit GoalImage px py
  | Blit ObstacleImage px py =>
      Some (px, py, cell_size self, cell_size self)
  | Blit Overlay px py =>
      Some (px, py, grid_size self * cell_size self, 50)
  | _ => None
  end.

(** The rectangle lies in the window that the setup opens. *)
Definition in_window (self : StaticGridEnv) (r : rectangle) : Prop :=
  let '(px, py, width, height) := r in
  0 <= px /\ px + width <= grid_size self * cell_size self /\
  0 <= py /\ py + height <= grid_size self * cell_size self + 50.

(** The rectangle starts below the 50 pixel strip of the title. *)
Definition below_strip (r : rectangle) : Prop :=
  let '(_, py, _, _) := r in 50 <= py.

(** The call draws part of the board: an outline or a picture. *)
Definition is_board (e : effect) : bool :=
  match e with
  | DrawRect _ _ _ _ _ | Blit AgentImage _ _ | Blit GoalImage _ _
  | Blit ObstacleImage _ _ => true
  | _ => false
  end.

(** A cell of the grid of [self]. *)
Definition on_grid (self : StaticGridEnv) (p : pos) : Prop :=
  0 <= fst p < grid_size self /\ 0 <= snd p < grid_size self.

End WithFloats.

End Render.

(** * Properties of [StaticGridEnv] *)

Import Env.

(** ** Tuples, membership and the layout *)

Lemma pos_eqb_eq (p q : pos) : pos_eqb p q = true <-> p = q.
Proof.
  destruct p as [a b], q as [c d]; unfold pos_eqb; simpl.
  rewrite andb_true_iff, !Z.eqb_eq. split.
  - intros [-> ->]. reflexivity.
  - intros H. injection H as -> ->. split; reflexivity.
Qed.

Lemma pos_eqb_neq (p q : pos) : pos_eqb p q = false <-> p <> q.
Proof.
  rewrite <- pos_eqb_eq. destruct (pos_eqb p q); intuition congruence.
Qed.

(** The obstacles are the diagonal cells (1,1) .. (5,5). *)
Lemma obstacle_iff (x y : Z) :
  mem (x, y) obstacle_set = true <-> x = y /\ 1 <= x <= 5.
Proof.
  unfold obstacle_set, mem, pos_eqb; simpl.
  rewrite !orb_true_iff, !andb_true_iff, !Z.eqb_eq. lia.
Qed.

Lemma not_obstacle_iff (x y : Z) :
  mem (x, y) obstacle_set = false <-> ~ (x = y /\ 1 <= x <= 5).
Proof.
  rewrite <- obstacle_iff. destruct (mem (x, y) obstacle_set); intuition congruence.
Qed.

Lemma goal_iff (x y : Z) : pos_eqb (x, y) goal_cell = true <-> x = 9 /\ y = 9.
Proof. rewrite pos_eqb_eq. unfold goal_cell. apply pair_equal_spec. Qed.

Lemma configured_fresh : configured fresh.
Proof. repeat split. Qed.

Lemma configured_set_state (self : StaticGridEnv) (p : pos) :
  configured self -> configured (set_state self p).
Proof. unfold configured; simpl; tauto. Qed.

Lemma same_but_state_set_state (self : StaticGridEnv) (p : pos) :
  same_but_state self (set_state self p).
Proof. repeat split. Qed.

Lemma same_but_state_refl (self : StaticGridEnv) : same_but_state self self.
Proof. repeat split. Qed.

(** ** [step], one equation per phase *)

(** The five ways lines 82-89 can go on a 10 x 10 grid. *)
Lemma candidate_cases (self : StaticGridEnv) (a x y : Z) :
  grid_size self = 10 ->
  (a = 0 /\ 0 < x /\ candidate self a (x, y) = (x - 1, y)) \/
  (a = 1 /\ x < 9 /\ candidate self a (x, y) = (x + 1, y)) \/
  (a = 2 /\ 0 < y /\ candidate self a (x, y) = (x, y - 1)) \/
  (a = 3 /\ y < 9 /\ candidate self a (x, y) = (x, y + 1)) \/
  (candidate self a (x, y) = (x, y) /\
   (a = 0 -> x <= 0) /\ (a = 1 -> 9 <= x) /\
   (a = 2 -> y <= 0) /\ (a = 3 -> 9 <= y)).
Proof.
  intros Hn. unfold candidate. rewrite Hn.
  destruct (Z.eqb_spec a 0), (Z.eqb_spec a 1), (Z.eqb_spec a 2),
    (Z.eqb_spec a 3), (Z.gtb_spec x 0), (Z.ltb_spec x (10 - 1)),
    (Z.gtb_spec y 0), (Z.ltb_spec y (10 - 1)); simpl;
    try lia; intuition lia.
Qed.

(** [step] written out: the stored position, the reward and the flag. *)
Lemma step_eq (self : StaticGridEnv) (a : Z) (p : pos) :
  state self = Some p ->
  step self a =
    (Ok (landing self a p,
         if pos_eqb (landing self a p) (goal self) then 20
         else if mem (candidate self a p) (obstacles self) then -5 else -1,
         pos_eqb (landing self a p) (goal self),
         []),
     set_state self (landing self a p)).
Proof.
  intros Hs. unfold step, landing. rewrite Hs. destruct p as [x y].
  destruct (candidate self a (x, y)) as [cx cy].
  destruct (mem (cx, cy) (obstacles self)); simpl;
    match goal with |- context [pos_eqb ?u ?v] => destruct (pos_eqb u v) end;
    reflexivity.
Qed.

Lemma step_unset (self : StaticGridEnv) (a : Z) :
  state self = None ->
  step self a =
    (Raise (TypeError "cannot unpack non-iterable NoneType object"), self).
Proof. intros Hs. unfold step. rewrite Hs. reflexivity. Qed.

(** What [step] does from a cell of the grid, by cases on the candidate:
    the stored cell is the old one or the requested neighbour, and it is
    inside the grid. *)
Lemma landing_cases (self : StaticGridEnv) (a x y : Z) :
  configured self -> in_grid (x, y) ->
  let c := candidate self a (x, y) in
  let p' := landing self a (x, y) in
  in_grid c /\
  (c = (x, y) \/ moved_one_cell a (x, y) c) /\
  ((mem c obstacle_set = true /\ p' = (x, y)) \/
   (mem c obstacle_set = false /\ p' = c)).
Proof.
  intros (Hn & Ho & _) [Hx Hy]; simpl in Hx, Hy.
  unfold landing. rewrite Ho.
  destruct (candidate_cases self a x y Hn)
    as [(Ha & Hb & ->)|[(Ha & Hb & ->)|[(Ha & Hb & ->)|[(Ha & Hb & ->)
       |(-> & _)]]]];
    (split; [unfold in_grid; simpl; lia|]);
    (split; [unfold moved_one_cell; simpl; auto 6|]);
    match goal with |- context [mem ?c obstacle_set] =>
      destruct (mem c obstacle_set); auto end.
Qed.

(** Equalities of tuples become equalities of their coordinates, then
    linear arithmetic decides. *)
Ltac split_pairs :=
  repeat match goal with
    | H : context [(?a, ?b) = (?c, ?d)] |- _ =>
        rewrite (pair_equal_spec a c b d) in H
    | |- context [(?a, ?b) = (?c, ?d)] =>
        rewrite (pair_equal_spec a c b d)
    end.

Ltac pair_lia :=
  unfold obstacle_blocked, boundary_blocked, moved, reached_goal,
    moved_one_cell, goal_cell, in_grid in *;
  cbn [fst snd] in *; split_pairs; lia.

(** Each listed outcome is settled on its own; what is left is
    propositional. *)
Ltac by_hyps :=
  unfold obstacle_blocked, boundary_blocked, moved, reached_goal, goal_cell;
  repeat split; solve [assumption | reflexivity | f_equal; lia].

Ltac settle P :=
  first [assert P by by_hyps | assert (~ P) by pair_lia | assert P by pair_lia].

Ltac pick_outcome :=
  try (exfalso; pair_lia);
  match goal with
  | |- exactly_one [?A; ?B; ?C; ?D] =>
      settle A; settle B; settle C; settle D;
      unfold exactly_one, none_of; tauto
  | |- ~ exactly_one [?A; ?B; ?C] =>
      settle A; settle B; settle C;
      unfold exactly_one, none_of; tauto
  end.

(** ** The scenarios of the specification *)

Example step_up_at_top_boundary :
  step (at_cell (0, 5)) 0 = (Ok ((0, 5), -1, false, []), at_cell (0, 5)).
Proof. reflexivity. Qed.

Example step_down_to_free_cell :
  step (at_cell (0, 2)) 1 = (Ok ((1, 2), -1, false, []), at_cell (1, 2)).
Proof. reflexivity. Qed.

Example step_down_onto_obstacle :
  step (at_cell (0, 1)) 1 = (Ok ((0, 1), -5, false, []), at_cell (0, 1)).
Proof. reflexivity. Qed.

Example step_down_onto_goal :
  step (at_cell (8, 9)) 1 = (Ok ((9, 9), 20, true, []), at_cell (9, 9)).
Proof. reflexivity. Qed.

Example step_on_new_environment :
  step fresh 3 =
    (Raise (TypeError "cannot unpack non-iterable NoneType object"), fresh).
Proof. reflexivity. Qed.

(** ** C1 *)

(** C1, as stated, fails where the move enters the goal: from the
    non-terminal cell (8,9) the action 1 (down) is answered with position
    (9,9) and reward 20, which is none of the three outcomes. *)
Lemma step_into_goal_is_none_of_the_three :
  configured (at_cell (8, 9)) /\ state (at_cell (8, 9)) = Some (8, 9) /\
  in_grid (8, 9) /\ mem (8, 9) obstacle_set = false /\ (8, 9) <> goal_cell /\
  step (at_cell (8, 9)) 1 = (Ok ((9, 9), 20, true, []), at_cell (9, 9)) /\
  ~ exactly_one [obstacle_blocked (8, 9) (9, 9) 20;
                 boundary_blocked (8, 9) (9, 9) 20;
                 moved 1 (8, 9) (9, 9) 20].
Proof.
  repeat split; try reflexivity; try (simpl; lia).
  - discriminate.
  - pick_outcome.
Qed.

(** C1, amended: from a non-terminal cell and for each of the four actions,
    [step] returns and exactly one of four outcomes holds: position unchanged
    with reward -5, position unchanged with reward -1, position moved one
    cell the requested way with reward -1, or position moved one cell the
    requested way onto the goal (9,9) with reward +20. *)
Theorem step_outcome_exactly_one_of_four
  (self : StaticGridEnv) (p : pos) (a : Z) :
  configured self -> state self = Some p ->
  in_grid p -> mem p obstacle_set = false -> p <> goal_cell ->
  0 <= a <= 3 ->
  exists p' r d,
    step self a = (Ok (p', r, d, []), set_state self p') /\
    exactly_one [obstacle_blocked p p' r;
                 boundary_blocked p p' r;
                 moved a p p' r;
                 reached_goal a p p' r].
Proof.
  intros Hc Hs Hg Hob Hgoal Ha. destruct p as [x y].
  rewrite (step_eq self a (x, y) Hs).
  pose proof (landing_cases self a x y Hc Hg) as (Hin & Hmv & Hland).
  destruct Hc as (Hn & Ho & Hgl). rewrite Ho, Hgl.
  apply not_obstacle_iff in Hob.
  destruct (candidate self a (x, y)) as [cx cy] eqn:Ec.
  do 3 eexists. split; [reflexivity|].
  destruct Hland as [[Hm ->]|[Hm ->]]; rewrite Hm.
  - destruct (pos_eqb (x, y) goal_cell) eqn:E.
    + apply pos_eqb_eq in E. contradiction.
    + pick_outcome.
  - apply not_obstacle_iff in Hm.
    destruct (pos_eqb (cx, cy) goal_cell) eqn:E.
    + apply goal_iff in E. destruct Hmv as [Hmv|Hmv]; pick_outcome.
    + apply pos_eqb_neq in E. destruct Hmv as [Hmv|Hmv]; pick_outcome.
Qed.

Lemma step_outcome_exactly_one_of_four_witness :
  exists p' r d,
    step (at_cell (8, 9)) 1 = (Ok (p', r, d, []), set_state (at_cell (8, 9)) p') /\
    exactly_one [obstacle_blocked (8, 9) p' r;
                 boundary_blocked (8, 9) p' r;
                 moved 1 (8, 9) p' r;
                 reached_goal 1 (8, 9) p' r].
Proof.
  apply (step_outcome_exactly_one_of_four (at_cell (8, 9)) (8, 9) 1).
  - apply configured_set_state, configured_fresh.
  - reflexivity.
  - unfold in_grid; simpl; lia.
  - reflexivity.
  - discriminate.
  - lia.
Defined.

(** ** C2 *)

(** C2: from an in-bounds non-obstacle cell and for every integer action,
    [step] returns; if the position it returns is the goal (9,9) the reward
    is +20 and done is true, otherwise done is false.  From (8,9), action 1
    gives position (9,9), reward 20, done = true. *)
Theorem step_goal_reward_and_done
  (self : StaticGridEnv) (p : pos) (a : Z) :
  configured self -> state self = Some p ->
  in_grid p -> mem p obstacle_set = false ->
  (exists p' r d,
     step self a = (Ok (p', r, d, []), set_state self p') /\
     (p' = goal_cell -> r = 20 /\ d = true) /\
     (p' <> goal_cell -> d = false)) /\
  (p = (8, 9) -> a = 1 ->
   step self a = (Ok ((9, 9), 20, true, []), set_state self (9, 9))).
Proof.
  intros Hc Hs _ _. pose proof Hc as (Hn & Ho & Hgl). split.
  - rewrite (step_eq self a p Hs), Hgl.
    do 3 eexists. split; [reflexivity|]. split.
    + intros E. apply pos_eqb_eq in E. rewrite E. auto.
    + intros E. apply pos_eqb_neq in E. exact E.
  - intros -> ->. rewrite (step_eq self 1 (8, 9) Hs).
    unfold landing, candidate. rewrite Hn, Ho, Hgl. reflexivity.
Qed.

Lemma step_goal_reward_and_done_witness :
  step (at_cell (8, 9)) 1 =
    (Ok ((9, 9), 20, true, []), set_state (at_cell (8, 9)) (9, 9)).
Proof.
  destruct (step_goal_reward_and_done (at_cell (8, 9)) (8, 9) 1) as [_ H].
  - apply configured_set_state, configured_fresh.
  - reflexivity.
  - unfold in_grid; simpl; lia.
  - reflexivity.
  - apply H; reflexivity.
Defined.

(** ** C3 *)

(** C3: from an in-bounds non-obstacle non-goal cell and for each of the
    four actions, when the computed next cell is an obstacle [step] keeps the
    position and returns reward -5 (and done = false).  From (0,1), action 1
    gives position (0,1), reward -5, done = false. *)
Theorem step_obstacle_keeps_position_minus_five
  (self : StaticGridEnv) (p : pos) (a : Z) :
  configured self -> state self = Some p ->
  in_grid p -> mem p obstacle_set = false -> p <> goal_cell ->
  0 <= a <= 3 ->
  (mem (candidate self a p) obstacle_set = true ->
   step self a = (Ok (p, -5, false, []), set_state self p)) /\
  (p = (0, 1) -> a = 1 ->
   candidate self a p = (1, 1) /\
   step self a = (Ok ((0, 1), -5, false, []), set_state self (0, 1))).
Proof.
  intros Hc Hs _ _ Hgoal _. pose proof Hc as (Hn & Ho & Hgl).
  apply pos_eqb_neq in Hgoal. split.
  - intros Hm. rewrite (step_eq self a p Hs). unfold landing.
    rewrite Ho, Hgl, Hm, Hgoal. reflexivity.
  - intros -> ->. rewrite (step_eq self 1 (0, 1) Hs).
    unfold landing, candidate. rewrite Hn, Ho, Hgl. split; reflexivity.
Qed.

Lemma step_obstacle_keeps_position_minus_five_witness :
  mem (candidate (at_cell (0, 1)) 1 (0, 1)) obstacle_set = true /\
  step (at_cell (0, 1)) 1 =
    (Ok ((0, 1), -5, false, []), set_state (at_cell (0, 1)) (0, 1)).
Proof.
  split; [reflexivity|].
  destruct (step_obstacle_keeps_position_minus_five (at_cell (0, 1)) (0, 1) 1)
    as [H _].
  - apply configured_set_state, configured_fresh.
  - reflexivity.
  - unfold in_grid; simpl; lia.
  - reflexivity.
  - discriminate.
  - lia.
  - apply H. reflexivity.
Defined.

(** ** C5 *)

(** C5: an integer action code outside 0..3 is not rejected: from an
    in-bounds non-obstacle non-goal cell [step] raises nothing, keeps the
    position and returns reward -1 and done = false. *)
Theorem step_unknown_action_is_noop
  (self : StaticGridEnv) (p : pos) (a : Z) :
  configured self -> state self = Some p ->
  in_grid p -> mem p obstacle_set = false -> p <> goal_cell ->
  ~ (0 <= a <= 3) ->
  step self a = (Ok (p, -1, false, []), set_state self p).
Proof.
  intros (Hn & Ho & Hgl) Hs _ Hob Hgoal Ha. destruct p as [x y].
  apply pos_eqb_neq in Hgoal.
  assert (Hc : candidate self a (x, y) = (x, y)).
  { destruct (candidate_cases self a x y Hn)
      as [(E & _)|[(E & _)|[(E & _)|[(E & _)|(E & _)]]]];
      try lia; exact E. }
  rewrite (step_eq self a (x, y) Hs). unfold landing.
  rewrite Hc, Ho, Hgl, Hob, Hgoal. reflexivity.
Qed.

Lemma step_unknown_action_is_noop_witness :
  step (at_cell (0, 5)) 7 = (Ok ((0, 5), -1, false, []), set_state (at_cell (0, 5)) (0, 5)) /\
  step (at_cell (6, 6)) (-1) = (Ok ((6, 6), -1, false, []), set_state (at_cell (6, 6)) (6, 6)).
Proof.
  split.
  - apply (step_unknown_action_is_noop (at_cell (0, 5)) (0, 5) 7).
    + apply configured_set_state, configured_fresh.
    + reflexivity.
    + unfold in_grid; simpl; lia.
    + reflexivity.
    + discriminate.
    + lia.
  - apply (step_unknown_action_is_noop (at_cell (6, 6)) (6, 6) (-1)).
    + apply configured_set_state, configured_fresh.
    + reflexivity.
    + unfold in_grid; simpl; lia.
    + reflexivity.
    + discriminate.
    + lia.
Defined.

(** ** The sample generator keeps [randint]'s contract *)

Lemma lcg_in_range : randint_in_range Lcg.rng Lcg.randint.
Proof.
  intros low high g Hlt. unfold Lcg.randint; simpl.
  pose proof (Z.mod_pos_bound (Lcg.next g / 65536) (high - low)). lia.
Qed.

(** ** [reset] and the random stream *)

Section ResetFacts.

Variable rng : Type.
Variable np_seed : Z -> rng.
Variable randint : Z -> Z -> rng -> Z * rng.

Local Abbreviation reset := (Env.reset rng randint).
Local Abbreviation sample := (Env.sample rng randint).
Local Abbreviation skip := (Env.skip rng randint).
Local Abbreviation nth_sample := (Env.nth_sample rng randint).
Local Abbreviation first_free := (Env.first_free rng randint).
Local Abbreviation __init__ := (Env.__init__ rng np_seed).
Local Abbreviation run := (Env.run rng randint).
Local Abbreviation session := (Env.session rng np_seed randint).
Local Abbreviation one_after_another :=
  (Env.one_after_another rng np_seed randint).

(** One turn of the loop: draw a pair, keep it if it is free. *)
Lemma reset_S (fuel : nat) (self : StaticGridEnv) (g : rng) :
  reset (S fuel) self g =
    (let '(p, g') := sample self g in
     if free self p then Some (p, set_state self p, g')
     else reset fuel self g').
Proof.
  simpl. unfold Env.sample, free.
  destruct (randint 0 (grid_size self) g) as [x g1].
  destruct (randint 0 (grid_size self) g1) as [y g2]. reflexivity.
Qed.

Lemma nth_sample_0 (self : StaticGridEnv) (g : rng) :
  nth_sample self 0 g = fst (sample self g).
Proof. reflexivity. Qed.

Lemma nth_sample_S (self : StaticGridEnv) (k : nat) (g : rng) :
  nth_sample self (S k) g = nth_sample self k (snd (sample self g)).
Proof. reflexivity. Qed.

(** If [reset] returns, it returns the first free pair of the stream. *)
Lemma reset_sound (self : StaticGridEnv) (fuel : nat) :
  forall g p self' g',
    reset fuel self g = Some (p, self', g') ->
    exists k, (k < fuel)%nat /\ first_free self g k /\
              p = nth_sample self k g /\ self' = set_state self p /\
              g' = skip self (S k) g.
Proof.
  induction fuel as [|fuel IH]; intros g p self' g' H.
  - discriminate.
  - rewrite reset_S in H. destruct (sample self g) as [p0 g0] eqn:Es.
    destruct (free self p0) eqn:Ef.
    + injection H as <- <- <-. exists 0%nat.
      assert (E0 : nth_sample self 0 g = p0)
        by (rewrite nth_sample_0, Es; reflexivity).
      split; [lia|]. split; [split; [rewrite E0; exact Ef | intros j Hj; lia]|].
      rewrite E0. simpl. rewrite Es. auto.
    + destruct (IH _ _ _ _ H) as (k & Hk & [Hf Hlt] & Hp & Hs & Hg).
      assert (ES : forall j, nth_sample self (S j) g = nth_sample self j g0)
        by (intros j; rewrite nth_sample_S, Es; reflexivity).
      assert (EK : forall j, skip self (S j) g = skip self j g0)
        by (intros j; simpl; rewrite Es; reflexivity).
      exists (S k). rewrite ES, EK.
      split; [lia|]. split; [split|auto].
      * rewrite ES. exact Hf.
      * intros [|j] Hj; [rewrite nth_sample_0, Es; exact Ef|].
        rewrite ES. apply Hlt. lia.
Qed.

(** If the stream has a free pair, [reset] returns with enough fuel. *)
Lemma reset_complete (self : StaticGridEnv) (fuel : nat) :
  forall g k,
    first_free self g k -> (k < fuel)%nat ->
    reset fuel self g =
      Some (nth_sample self k g, set_state self (nth_sample self k g),
            skip self (S k) g).
Proof.
  induction fuel as [|fuel IH]; intros g k [Hf Hlt] Hk; [lia|].
  rewrite reset_S. destruct (sample self g) as [p0 g0] eqn:Es.
  destruct k as [|k].
  - rewrite nth_sample_0, Es in Hf. simpl in Hf. rewrite Hf.
    rewrite nth_sample_0. simpl. rewrite Es. reflexivity.
  - assert (E0 : free self p0 = false).
    { specialize (Hlt 0%nat). rewrite nth_sample_0, Es in Hlt.
      apply Hlt. lia. }
    rewrite E0. rewrite nth_sample_S, Es. simpl.
    rewrite (IH g0 k); [rewrite Es; reflexivity| |lia].
    split.
    + rewrite nth_sample_S, Es in Hf. exact Hf.
    + intros j Hj. specialize (Hlt (S j)).
      rewrite nth_sample_S, Es in Hlt. apply Hlt. lia.
Qed.

(** While [reset] has not returned, every pair so far was rejected. *)
Lemma reset_running (self : StaticGridEnv) (fuel : nat) :
  forall g, reset fuel self g = None ->
    forall j, (j < fuel)%nat -> free self (nth_sample self j g) = false.
Proof.
  induction fuel as [|fuel IH]; intros g H j Hj; [lia|].
  rewrite reset_S in H. destruct (sample self g) as [p0 g0] eqn:Es.
  destruct (free self p0) eqn:Ef; [discriminate|].
  destruct j as [|j].
  - rewrite nth_sample_0, Es. exact Ef.
  - rewrite nth_sample_S, Es. apply (IH g0 H). lia.
Qed.

Lemma free_iff (self : StaticGridEnv) (p : pos) :
  configured self ->
  free self p = true <-> mem p obstacle_set = false /\ p <> goal_cell.
Proof.
  intros (_ & Ho & Hgl). unfold free. rewrite Ho, Hgl.
  rewrite andb_true_iff, !negb_true_iff, pos_eqb_neq. tauto.
Qed.

Section InRange.

Hypothesis randint_range : randint_in_range rng randint.

Lemma sample_in_grid (self : StaticGridEnv) (g : rng) :
  grid_size self = 10 -> in_grid (fst (sample self g)).
Proof.
  intros Hn. unfold Env.sample. rewrite Hn.
  pose proof (randint_range 0 10 g) as Hx.
  destruct (randint 0 10 g) as [x g1].
  pose proof (randint_range 0 10 g1) as Hy.
  destruct (randint 0 10 g1) as [y g2].
  unfold in_grid; simpl in *. lia.
Qed.

Lemma nth_sample_in_grid (self : StaticGridEnv) (k : nat) (g : rng) :
  grid_size self = 10 -> in_grid (nth_sample self k g).
Proof. intros Hn. apply sample_in_grid, Hn. Qed.

(** What holds of the position [reset] returns. *)
Lemma reset_returned_position
  (self : StaticGridEnv) (fuel : nat) (g : rng)
  (p : pos) (self' : StaticGridEnv) (g' : rng) :
  configured self ->
  reset fuel self g = Some (p, self', g') ->
  state self' = Some p /\
  in_grid p /\ mem p obstacle_set = false /\ p <> goal_cell /\
  exists k, (k < fuel)%nat /\ first_free self g k /\
            p = nth_sample self k g.
Proof.
  intros Hc H. pose proof Hc as (Hn & _).
  destruct (reset_sound self fuel g p self' g' H)
    as (k & Hk & Hff & Hp & Hs & _).
  split; [rewrite Hs; reflexivity|].
  split; [rewrite Hp; apply nth_sample_in_grid, Hn|].
  pose proof Hff as [Hf _]. rewrite <- Hp in Hf.
  apply (free_iff self p Hc) in Hf. destruct Hf as [Hob Hgoal].
  repeat split; auto. exists k. auto.
Qed.

(** ** C4 *)

(** C4: whatever the position before the call, [reset] returns the first
    pair of the random stream that is neither an obstacle nor the goal, and
    stores it as the agent position; that pair has 0 <= row, col < 10, is no
    obstacle and is not (9,9).  The loop returns as soon as the stream has
    such a pair: with the first free pair at index [k], [k + 1] turns are
    enough. *)
Theorem reset_returns_first_free_sample (self : StaticGridEnv) (g : rng) :
  configured self ->
  (forall k fuel, first_free self g k -> (k < fuel)%nat ->
     let p := nth_sample self k g in
     reset fuel self g = Some (p, set_state self p, skip self (S k) g) /\
     state (set_state self p) = Some p /\
     in_grid p /\ mem p obstacle_set = false /\ p <> goal_cell) /\
  (forall fuel p self' g',
     reset fuel self g = Some (p, self', g') ->
     state self' = Some p /\
     in_grid p /\ mem p obstacle_set = false /\ p <> goal_cell /\
     exists k, (k < fuel)%nat /\ first_free self g k /\
               p = nth_sample self k g).
Proof.
  intros Hc. pose proof Hc as (Hn & _). split.
  - intros k fuel Hff Hk p. split; [apply reset_complete; assumption|].
    split; [reflexivity|]. split; [apply nth_sample_in_grid, Hn|].
    destruct Hff as [Hf _]. apply (free_iff self p Hc) in Hf. exact Hf.
  - intros fuel p self' g' H.
    apply (reset_returned_position self fuel g p self' g' Hc H).
Qed.

(** ** C7 *)

(** C7: a position inside the grid and off the obstacles stays so across
    [step] with any integer action, and the position [step] returns is the
    one it stores; [reset] establishes the same: when it returns, the stored
    and returned position is inside the grid and off the obstacles, and
    while it has not returned every pair drawn so far was rejected. *)
Theorem position_invariant_preserved (self : StaticGridEnv) :
  configured self ->
  (forall p a, state self = Some p ->
     in_grid p -> mem p obstacle_set = false ->
     exists p' r d,
       step self a = (Ok (p', r, d, []), set_state self p') /\
       state (set_state self p') = Some p' /\
       in_grid p' /\ mem p' obstacle_set = false) /\
  (forall fuel g,
     match reset fuel self g with
     | Some (p, self', _) =>
         state self' = Some p /\ in_grid p /\ mem p obstacle_set = false
     | None =>
         forall j, (j < fuel)%nat -> free self (nth_sample self j g) = false
     end).
Proof.
  intros Hc. split.
  - intros [x y] a Hs Hg Hob. rewrite (step_eq self a (x, y) Hs).
    do 3 eexists. split; [reflexivity|]. split; [reflexivity|].
    destruct (landing_cases self a x y Hc Hg) as (Hin & _ & Hland).
    destruct Hland as [[_ ->]|[Hm ->]]; auto.
  - intros fuel g. destruct (reset fuel self g) as [[[p self'] g']|] eqn:E.
    + destruct (reset_returned_position self fuel g p self' g' Hc E)
        as (H1 & H2 & H3 & _). auto.
    + apply reset_running, E.
Qed.

End InRange.

(** ** C6 *)

Local Abbreviation pairs := (Stream.pairs rng randint).
Local Abbreviation free_pairs := (Stream.free_pairs rng randint).
Local Abbreviation same_pairs := (Stream.same_pairs rng randint).

Lemma skip_set_state (self : StaticGridEnv) (p : pos) (k : nat) (g : rng) :
  skip (set_state self p) k g = skip self k g.
Proof.
  revert g. induction k as [|k IH]; intros g; [reflexivity|].
  simpl. rewrite IH. reflexivity.
Qed.

Lemma nth_sample_set_state (self : StaticGridEnv) (p : pos) (k : nat)
  (g : rng) :
  nth_sample (set_state self p) k g = nth_sample self k g.
Proof. unfold Env.nth_sample. rewrite skip_set_state. reflexivity. Qed.

Lemma free_pairs_set_state (self : StaticGridEnv) (p : pos) (g : rng)
  (i n : nat) :
  free_pairs (set_state self p) g i n = free_pairs self g i n.
Proof.
  unfold Stream.free_pairs, Stream.pairs. f_equal.
  apply map_ext. intros k. apply nth_sample_set_state.
Qed.

Lemma skip_skip (self : StaticGridEnv) (i j : nat) (g : rng) :
  skip self j (skip self i g) = skip self (i + j) g.
Proof.
  revert g. induction i as [|i IH]; intros g; [reflexivity|].
  simpl. apply IH.
Qed.

Lemma nth_sample_skip (self : StaticGridEnv) (i j : nat) (g : rng) :
  nth_sample self j (skip self i g) = nth_sample self (i + j) g.
Proof. unfold Env.nth_sample. rewrite skip_skip. reflexivity. Qed.

Lemma pairs_skip (self : StaticGridEnv) (g : rng) (i n : nat) :
  forall j, pairs self (skip self i g) j n = pairs self g (i + j) n.
Proof.
  unfold Stream.pairs. induction n as [|n IH]; intros j; [reflexivity|].
  simpl. rewrite nth_sample_skip. f_equal.
  rewrite IH. rewrite Nat.add_succ_r. reflexivity.
Qed.

Lemma pairs_app (self : StaticGridEnv) (g : rng) (i n n' : nat) :
  pairs self g i (n + n') = pairs self g i n ++ pairs self g (i + n) n'.
Proof. unfold Stream.pairs. rewrite seq_app, map_app. reflexivity. Qed.

Lemma free_pairs_rejected (self : StaticGridEnv) (g : rng) (k : nat) :
  (forall j, (j < k)%nat -> free self (nth_sample self j g) = false) ->
  free_pairs self g 0 k = [].
Proof.
  intros H. unfold Stream.free_pairs, Stream.pairs.
  assert (Hall : forall p,
            In p (map (fun j => nth_sample self j g) (seq 0 k)) ->
            free self p = false).
  { intros p Hp. apply in_map_iff in Hp. destruct Hp as (j & <- & Hj).
    apply in_seq in Hj. apply H. lia. }
  induction (map (fun j => nth_sample self j g) (seq 0 k)) as [|p l IH];
    [reflexivity|].
  simpl. rewrite (Hall p (or_introl eq_refl)). apply IH.
  intros q Hq. apply Hall. right. exact Hq.
Qed.

(** A [reset] that returns after rejecting [k] pairs adds pair [k] to the
    free pairs seen so far. *)
Lemma free_pairs_after_reset (self : StaticGridEnv) (g : rng) (k n : nat) :
  first_free self g k ->
  free_pairs self g 0 (S k + n) =
    nth_sample self k g :: free_pairs self (skip self (S k) g) 0 n.
Proof.
  intros [Hf Hlt].
  assert (E1 : pairs self g k (S n) =
               nth_sample self k g :: pairs self g (S k) n) by reflexivity.
  unfold Stream.free_pairs.
  replace (S k + n)%nat with (k + S n)%nat by lia.
  rewrite pairs_app, filter_app.
  fold (free_pairs self g 0 k). rewrite (free_pairs_rejected self g k Hlt).
  cbn [Nat.add app]. rewrite E1. cbn [filter]. rewrite Hf.
  rewrite pairs_skip. replace (S k + 0)%nat with (S k) by lia. reflexivity.
Qed.

Lemma step_object (self : StaticGridEnv) (a : Z) :
  snd (step self a) = self \/ exists p, snd (step self a) = set_state self p.
Proof.
  destruct (state self) as [p|] eqn:Hs.
  - right. rewrite (step_eq self a p Hs). eexists. reflexivity.
  - left. rewrite (step_unset self a Hs). reflexivity.
Qed.

(** What a run draws and returns: it consumes some number [n] of pairs of
    the stream; its resets return the free ones among them, in order, and
    its steps draw nothing; and any stream that hands out the same [n] pairs
    leads to the same observations and the same object. *)
Lemma run_follows_stream (fuel : nat) (cs : list call) :
  forall self g os self' g',
    run fuel self g cs = Some (os, self', g') ->
    exists n,
      g' = skip self n g /\
      Stream.resets_of os = free_pairs self g 0 n /\
      forall h, same_pairs self g h n ->
        run fuel self h cs = Some (os, self', skip self n h).
Proof.
  induction cs as [|c cs IH]; intros self g os self' g' H.
  - simpl in H. injection H as <- <- <-. exists 0%nat.
    repeat split; auto.
  - destruct c as [|a]; simpl in H.
    + destruct (reset fuel self g) as [[[p self1] g1]|] eqn:E;
        [|discriminate].
      destruct (reset_sound self fuel g p self1 g1 E)
        as (k & Hk & Hff & Hp & Hself & Hg1).
      destruct (run fuel self1 g1 cs) as [[[os1 self2] g2]|] eqn:E1;
        [|discriminate].
      injection H as <- <- <-.
      destruct (IH self1 g1 os1 self2 g2 E1) as (n & Hg2 & Hres & Hext).
      subst self1 g1. exists (S k + n)%nat.
      rewrite skip_set_state, skip_skip in Hg2.
      rewrite free_pairs_set_state in Hres.
      split; [exact Hg2|]. split.
      * simpl Stream.resets_of. rewrite Hres, Hp.
        symmetry. apply (free_pairs_after_reset self g k n Hff).
      * intros h Hh.
        assert (Hffh : first_free self h k).
        { destruct Hff as [Hf Hlt]. split.
          - rewrite (Hh k); [exact Hf | lia].
          - intros j Hj. rewrite (Hh j); [apply Hlt, Hj | lia]. }
        simpl. rewrite (reset_complete self fuel h k Hffh Hk).
        rewrite (Hh k) by lia. rewrite <- Hp.
        rewrite (Hext (skip self (S k) h)).
        -- rewrite skip_set_state, skip_skip. reflexivity.
        -- intros i Hi. rewrite !nth_sample_set_state, !nth_sample_skip.
           apply Hh. lia.
    + destruct (step self a) as [r self1] eqn:Es.
      destruct (run fuel self1 g cs) as [[[os1 self2] g2]|] eqn:E1;
        [|discriminate].
      injection H as <- <- <-.
      destruct (IH self1 g os1 self2 g2 E1) as (n & Hg2 & Hres & Hext).
      assert (Hobj : self1 = self \/ exists p, self1 = set_state self p).
      { pose proof (step_object self a) as Ho. rewrite Es in Ho. exact Ho. }
      exists n. destruct Hobj as [->|[p ->]].
      * split; [exact Hg2|]. split; [exact Hres|].
        intros h Hh. simpl. rewrite Es, (Hext h Hh). reflexivity.
      * rewrite skip_set_state in Hg2. rewrite free_pairs_set_state in Hres.
        split; [exact Hg2|]. split; [exact Hres|].
        intros h Hh. simpl. rewrite Es.
        rewrite (Hext h).
        -- rewrite skip_set_state. reflexivity.
        -- intros i Hi. rewrite !nth_sample_set_state. apply Hh, Hi.
Qed.


(** Side by side, the first environment still sees the seeded stream; the
    second starts from whatever the first has left of it. *)
Lemma side_by_side_eq (fuel : nat) (seed : Z) (cs : list call) (g : rng) :
  Env.side_by_side rng np_seed randint fuel (Some seed) cs g =
    match run fuel fresh (np_seed seed) cs with
    | None => None
    | Some (os1, _, g') =>
        match run fuel fresh g' cs with
        | None => None
        | Some (os2, _, _) => Some (os1, os2)
        end
    end.
Proof. reflexivity. Qed.

(** ** C8 *)

(** C8: [__init__] fixes the grid size 10, the obstacle set and the goal
    (9,9), the goal is no obstacle, and neither [step] (whether it returns or
    raises) nor [reset] changes any attribute but the agent position. *)
Theorem layout_is_never_mutated :
  (forall seed g, fst (__init__ seed g) = fresh) /\
  (grid_size fresh = 10 /\ obstacles fresh = obstacle_set /\
   goal fresh = goal_cell /\ mem (goal fresh) (obstacles fresh) = false) /\
  (forall self a,
     same_but_state self (snd (step self a)) /\
     (grid_size self, obstacles self, goal self) =
     (grid_size (snd (step self a)), obstacles (snd (step self a)),
      goal (snd (step self a)))) /\
  (forall fuel self g,
     match reset fuel self g with
     | Some (_, self', _) =>
         same_but_state self self' /\
         (grid_size self, obstacles self, goal self) =
         (grid_size self', obstacles self', goal self')
     | None => True
     end).
Proof.
  split; [reflexivity|]. split; [repeat split|]. split.
  - intros self a. unfold step.
    destruct (state self) as [[x y]|]; [|split; [apply same_but_state_refl|reflexivity]].
    destruct (candidate self a (x, y)) as [cx cy].
    destruct (mem (cx, cy) (obstacles self)); simpl;
      match goal with |- context [pos_eqb ?u ?v] => destruct (pos_eqb u v) end;
      simpl; split; first [apply same_but_state_set_state | reflexivity].
  - intros fuel self g.
    destruct (reset fuel self g) as [[[p self'] g']|] eqn:E; [|exact I].
    destruct (reset_sound self fuel g p self' g' E) as (_ & _ & _ & _ & -> & _).
    split; [apply same_but_state_set_state | reflexivity].
Qed.

(** ** C10 *)

(** C10: a newly constructed environment has no agent position; [step]
    with any action on an environment without a position fails on unpacking
    [None] and leaves the object as it was, while with a position it returns
    a result; and a [reset] that returns has stored a position. *)
Theorem step_before_reset_fails (seed : option Z) (g : rng) :
  state (fst (__init__ seed g)) = None /\
  (forall a,
     step (fst (__init__ seed g)) a =
       (Raise (TypeError "cannot unpack non-iterable NoneType object"),
        fst (__init__ seed g))) /\
  (forall self a,
     match state self with
     | None =>
         step self a =
           (Raise (TypeError "cannot unpack non-iterable NoneType object"),
            self)
     | Some _ => exists out, fst (step self a) = Ok out
     end) /\
  (forall fuel self g',
     match reset fuel self g' with
     | Some (p, self', _) => state self' = Some p
     | None => True
     end).
Proof.
  split; [reflexivity|]. split; [reflexivity|]. split.
  - intros self a. destruct (state self) as [p|] eqn:Hs.
    + rewrite (step_eq self a p Hs). eexists. reflexivity.
    + apply step_unset, Hs.
  - intros fuel self g'.
    destruct (reset fuel self g') as [[[p self'] g'']|] eqn:E; [|exact I].
    destruct (reset_sound self fuel g' p self' g'' E) as (_ & _ & _ & _ & -> & _).
    reflexivity.
Qed.

End ResetFacts.

(** ** Examples over the sample generator *)

Lemma reset_returns_first_free_sample_witness :
  Env.nth_sample Lcg.rng Lcg.randint fresh 0 (Lcg.np_seed 8) = (4, 4) /\
  Env.reset Lcg.rng Lcg.randint 2 fresh (Lcg.np_seed 8) =
    Some ((4, 3), at_cell (4, 3),
          Env.skip Lcg.rng Lcg.randint fresh 2 (Lcg.np_seed 8)).
Proof.
  split; [reflexivity|].
  destruct (reset_returns_first_free_sample Lcg.rng Lcg.randint lcg_in_range
              fresh (Lcg.np_seed 8) configured_fresh) as [H _].
  destruct (H 1%nat 2%nat) as [E _].
  - split; [reflexivity|].
    intros j Hj. assert (j = 0%nat) as -> by lia. reflexivity.
  - lia.
  - exact E.
Defined.

Lemma position_invariant_preserved_witness :
  (exists p' r d,
     step (at_cell (4, 3)) 0 = (Ok (p', r, d, []), set_state (at_cell (4, 3)) p') /\
     state (set_state (at_cell (4, 3)) p') = Some p' /\
     in_grid p' /\ mem p' obstacle_set = false) /\
  match Env.reset Lcg.rng Lcg.randint 2 (at_cell (4, 3)) (Lcg.np_seed 135) with
  | Some (p, self', _) =>
      state self' = Some p /\ in_grid p /\ mem p obstacle_set = false
  | None =>
      forall j, (j < 2)%nat ->
        free (at_cell (4, 3))
          (Env.nth_sample Lcg.rng Lcg.randint (at_cell (4, 3)) j
             (Lcg.np_seed 135)) = false
  end.
Proof.
  destruct (position_invariant_preserved Lcg.rng Lcg.randint lcg_in_range
              (at_cell (4, 3))) as [H1 H2].
  - apply configured_set_state, configured_fresh.
  - split.
    + apply (H1 (4, 3) 0).
      * reflexivity.
      * unfold in_grid; simpl; lia.
      * reflexivity.
    + exact (H2 2%nat (Lcg.np_seed 135)).
Defined.

(** numpy's generator, seeded with 1, hands out the digits known from
    numpy itself. *)
Example numpy_seed_1 :
  NumpyRandom.randints 10 0 10 (NumpyRandom.np_seed 1) =
    [5; 8; 9; 5; 0; 0; 1; 7; 6; 9].
Proof. vm_compute. reflexivity. Qed.

Example numpy_seed_42 :
  NumpyRandom.randints 10 0 10 (NumpyRandom.np_seed 42) =
    [6; 3; 7; 4; 6; 9; 2; 6; 7; 4].
Proof. vm_compute. reflexivity. Qed.


(** * Properties of [plot_comparison_with_baseline] *)

Section PlotFacts.

Variable value : Type.
Variable value_eqb : value -> value -> bool.

Local Abbreviation M := (Utils.M value).
Local Abbreviation plot := (Utils.plot_comparison_with_baseline value value_eqb).

Lemma bind_no_ValueError {A B : Type} (m : M A) (k : A -> M B) :
  Utils.no_ValueError value m ->
  (forall a, Utils.no_ValueError value (k a)) ->
  Utils.no_ValueError value (Utils.bind value m k).
Proof.
  intros Hm Hk msg. unfold Utils.bind.
  destruct m as [log [a|e]].
  - specialize (Hk a msg). destruct (k a) as [log' r]. exact Hk.
  - specialize (Hm msg). simpl in *. congruence.
Qed.

Lemma ret_no_ValueError {A : Type} (a : A) :
  Utils.no_ValueError value (Utils.ret value a).
Proof. intros msg. discriminate. Qed.

Lemma emit_no_ValueError (e : Utils.effect value) :
  Utils.no_ValueError value (Utils.emit value e).
Proof. intros msg. discriminate. Qed.

Lemma getitem_no_ValueError (df : Utils.DataFrame value) (name : string) :
  Utils.no_ValueError value (Utils.getitem value df name).
Proof.
  unfold Utils.getitem. apply bind_no_ValueError.
  - apply emit_no_ValueError.
  - intros _. destruct (Utils.lookup value name df); intros msg; discriminate.
Qed.

Lemma known_algorithm_iff (algorithm : string) :
  ((algorithm =? "Q-learning")%string || (algorithm =? "SARSA")%string) = true
  <-> Utils.known_algorithm algorithm.
Proof.
  unfold Utils.known_algorithm. rewrite orb_true_iff, !String.eqb_eq. tauto.
Qed.

Ltac no_ValueError_chain :=
  repeat first
    [ apply emit_no_ValueError
    | apply ret_no_ValueError
    | apply getitem_no_ValueError
    | apply bind_no_ValueError; [|intros ?] ].

(** ** C9 *)

Example plot_unknown_label :
  Utils.plot_comparison_with_baseline Z Z.eqb 8 Utils.sample_table (1, 2, 3)
    None "sarsa" =
    ([], Raise (ValueError
                  "Algorithm must be either 'Q-learning' or 'SARSA'")).
Proof. reflexivity. Qed.

Example plot_known_label_shows_chart :
  snd (Utils.plot_comparison_with_baseline Z Z.eqb 8 Utils.sample_table
         (1, 2, 3) None "SARSA") = Ok tt /\
  In (Utils.PlotLine Z "ax1" [1; 2] [10; 20])
     (fst (Utils.plot_comparison_with_baseline Z Z.eqb 8 Utils.sample_table
             (1, 2, 3) None "SARSA")).
Proof. split; [reflexivity | simpl; tauto]. Qed.

Example plot_missing_column_is_KeyError :
  snd (Utils.plot_comparison_with_baseline Z Z.eqb 8
         (firstn 3 Utils.sample_table) (1, 2, 3) (Some [2]) "Q-learning") =
    Raise (KeyError "Success Rate (%)").
Proof. reflexivity. Qed.

(** C9: [plot_comparison_with_baseline] raises [ValueError] if and only if
    the algorithm label is neither "Q-learning" nor "SARSA"; when it does,
    no column of the run table has been read and no chart call has been
    made. *)
Theorem plot_rejects_exactly_unknown_labels
  (availability : value) (df_learning : Utils.DataFrame value)
  (baseline_learning : value * value * value)
  (accuracies : option (list value)) (algorithm : string) :
  (Utils.is_ValueError
     (snd (plot availability df_learning baseline_learning accuracies
             algorithm))
   <-> ~ Utils.known_algorithm algorithm) /\
  (~ Utils.known_algorithm algorithm ->
   plot availability df_learning baseline_learning accuracies algorithm =
     ([], Raise (ValueError
                   "Algorithm must be either 'Q-learning' or 'SARSA'"))).
Proof.
  assert (Hbad : ~ Utils.known_algorithm algorithm ->
    plot availability df_learning baseline_learning accuracies algorithm =
      ([], Raise (ValueError
                    "Algorithm must be either 'Q-learning' or 'SARSA'"))).
  { intros Hn. rewrite <- known_algorithm_iff in Hn.
    apply not_true_is_false in Hn.
    unfold Utils.plot_comparison_with_baseline. rewrite Hn. reflexivity. }
  split; [|exact Hbad]. split.
  - intros [msg Hv] Hk. revert Hv.
    apply known_algorithm_iff in Hk.
    unfold Utils.plot_comparison_with_baseline. rewrite Hk.
    match goal with |- snd ?m = _ -> False =>
      assert (H : Utils.no_ValueError value m); [|exact (H msg)] end.
    apply bind_no_ValueError; [apply ret_no_ValueError|].
    intros [df [[b1 b2] b3]].
    apply bind_no_ValueError.
    { destruct accuracies; no_ValueError_chain. }
    intros acc. no_ValueError_chain.
  - intros Hn. rewrite (Hbad Hn). eexists. reflexivity.
Qed.

End PlotFacts.

(** * Further properties of [step] and [reset] *)

Import Walk.

(** [landing] reads only the grid size and the obstacles. *)
Lemma landing_configured (self : StaticGridEnv) (a : Z) (p : pos) :
  configured self -> landing self a p = landing fresh a p.
Proof.
  intros (Hn & Ho & _). unfold landing, candidate. destruct p as [x y].
  rewrite Hn, Ho. reflexivity.
Qed.

(** ** Rewards and the done flag *)

(** Whatever the position and the action, the reward of [step] is -5, -1 or
    20; it is 20 exactly when done is true, and that exactly when the
    returned position is the goal; it is -5 exactly when the requested cell
    is an obstacle and the agent does not stand on the goal. *)
Theorem step_reward_values (self : StaticGridEnv) (p : pos) (a : Z) :
  state self = Some p ->
  exists p' r d,
    step self a = (Ok (p', r, d, []), set_state self p') /\
    (r = -5 \/ r = -1 \/ r = 20) /\
    (d = true <-> r = 20) /\
    (d = true <-> p' = goal self) /\
    (r = -5 <->
     mem (candidate self a p) (obstacles self) = true /\ p <> goal self).
Proof.
  intros Hs. rewrite (step_eq self a p Hs). do 3 eexists.
  split; [reflexivity|]. unfold landing.
  destruct (mem (candidate self a p) (obstacles self)) eqn:Hm;
    match goal with |- context [pos_eqb ?u ?v] =>
      destruct (pos_eqb u v) eqn:E;
      [apply pos_eqb_eq in E | apply pos_eqb_neq in E] end.
  all: repeat split; auto; try lia; try discriminate;
    try (intros ?; contradiction);
    try (intros [? ?]; first [contradiction | discriminate]).
Qed.

Lemma step_reward_values_witness :
  exists p' r d,
    step (at_cell (4, 3)) 0 = (Ok (p', r, d, []), set_state (at_cell (4, 3)) p') /\
    (r = -5 \/ r = -1 \/ r = 20) /\
    (d = true <-> r = 20) /\
    (d = true <-> p' = goal (at_cell (4, 3))) /\
    (r = -5 <->
     mem (candidate (at_cell (4, 3)) 0 (4, 3)) (obstacles (at_cell (4, 3))) = true /\
     (4, 3) <> goal (at_cell (4, 3))).
Proof.
  apply (step_reward_values (at_cell (4, 3)) (4, 3) 0). reflexivity.
Defined.

(** ** One call moves at most one cell *)

Lemma candidate_near (self : StaticGridEnv) (a : Z) (p : pos) :
  candidate self a p = p \/ moved_one_cell a p (candidate self a p).
Proof.
  destruct p as [x y]. unfold candidate, moved_one_cell.
  destruct (Z.eqb_spec a 0) as [->|H0]; simpl;
    [destruct (x >? 0); simpl; auto 6|].
  destruct (Z.eqb_spec a 1) as [->|H1]; simpl;
    [destruct (x <? grid_size self - 1); simpl; auto 6|].
  destruct (Z.eqb_spec a 2) as [->|H2]; simpl;
    [destruct (y >? 0); simpl; auto 6|].
  destruct (Z.eqb_spec a 3) as [->|H3]; simpl;
    [destruct (y <? grid_size self - 1); simpl; auto 6|].
  auto.
Qed.

Lemma landing_near (self : StaticGridEnv) (a : Z) (p : pos) :
  landing self a p = p \/ moved_one_cell a p (landing self a p).
Proof.
  unfold landing. destruct (mem (candidate self a p) (obstacles self)); auto.
  apply candidate_near.
Qed.

Lemma moved_one_cell_manhattan (a : Z) (p q : pos) :
  moved_one_cell a p q -> manhattan p q = 1.
Proof.
  destruct p as [x y], q as [u v]. unfold moved_one_cell, manhattan; simpl.
  intros [[_ E]|[[_ E]|[[_ E]|[_ E]]]]; injection E as -> ->; lia.
Qed.

(** Whatever the layout, the position and the action code, [step] leaves
    the agent where it is or moves it exactly one cell in the direction of
    the action; it never moves diagonally or further. *)
Theorem step_moves_at_most_one_cell
  (self : StaticGridEnv) (p : pos) (a : Z) :
  state self = Some p ->
  exists p' r d,
    step self a = (Ok (p', r, d, []), set_state self p') /\
    (p' = p \/ moved_one_cell a p p') /\
    manhattan p p' <= 1.
Proof.
  intros Hs. rewrite (step_eq self a p Hs). do 3 eexists.
  split; [reflexivity|].
  destruct (landing_near self a p) as [E|E].
  - split; [auto|]. rewrite E. unfold manhattan. lia.
  - split; [auto|]. rewrite (moved_one_cell_manhattan a _ _ E). lia.
Qed.

Lemma step_moves_at_most_one_cell_witness :
  exists p' r d,
    step (at_cell (7, 2)) 3 = (Ok (p', r, d, []), set_state (at_cell (7, 2)) p') /\
    (p' = (7, 2) \/ moved_one_cell 3 (7, 2) p') /\
    manhattan (7, 2) p' <= 1.
Proof.
  apply (step_moves_at_most_one_cell (at_cell (7, 2)) (7, 2) 3). reflexivity.
Defined.

(** ** The goal does not absorb *)

(** [step] does not look at whether the episode has ended.  On the goal
    cell, action 0 walks up to (8,9) and action 2 left to (9,8), each with
    reward -1 and done = false; every other action code stays on the goal
    and is paid 20 with done = true once more. *)
Theorem step_from_goal (self : StaticGridEnv) (a : Z) :
  configured self -> state self = Some goal_cell ->
  step self a =
    if a =? 0 then (Ok ((8, 9), -1, false, []), set_state self (8, 9))
    else if a =? 2 then (Ok ((9, 8), -1, false, []), set_state self (9, 8))
    else (Ok ((9, 9), 20, true, []), set_state self (9, 9)).
Proof.
  intros (Hn & Ho & Hgl) Hs. rewrite (step_eq self a goal_cell Hs).
  unfold landing, candidate, goal_cell. rewrite Hn, Ho, Hgl.
  destruct (Z.eqb_spec a 0) as [->|H0]; [reflexivity|].
  destruct (Z.eqb_spec a 2) as [->|H2]; [reflexivity|].
  destruct (Z.eqb_spec a 1) as [->|H1]; [reflexivity|].
  destruct (Z.eqb_spec a 3) as [->|H3]; reflexivity.
Qed.

Lemma step_from_goal_witness :
  step (at_cell (9, 9)) 0 = (Ok ((8, 9), -1, false, []), at_cell (8, 9)) /\
  step (at_cell (9, 9)) 3 = (Ok ((9, 9), 20, true, []), at_cell (9, 9)).
Proof.
  split.
  - apply (step_from_goal (at_cell (9, 9)) 0).
    + apply configured_set_state, configured_fresh.
    + reflexivity.
  - apply (step_from_goal (at_cell (9, 9)) 3).
    + apply configured_set_state, configured_fresh.
    + reflexivity.
Defined.

(** ** Moves can be undone *)

Lemma landing_back (self : StaticGridEnv) (a : Z) (p q : pos) :
  configured self -> in_grid p -> mem p obstacle_set = false ->
  moved_one_cell a p q ->
  landing (set_state self q) (opposite a) q = p.
Proof.
  intros (Hn & Ho & _) [Hx Hy] Hob E. destruct p as [x y].
  simpl in Hx, Hy. unfold landing, candidate. simpl grid_size.
  simpl obstacles. rewrite Hn, Ho. unfold moved_one_cell in E. simpl in E.
  simpl in Hob.
  destruct E as [[-> ->]|[[-> ->]|[[-> ->]|[-> ->]]]]; unfold opposite; simpl.
  - destruct (Z.ltb_spec (x - 1) 9); [|lia].
    replace (x - 1 + 1) with x by lia. rewrite Hob. reflexivity.
  - destruct (Z.gtb_spec (x + 1) 0); [|lia].
    replace (x + 1 - 1) with x by lia. rewrite Hob. reflexivity.
  - destruct (Z.ltb_spec (y - 1) 9); [|lia].
    replace (y - 1 + 1) with y by lia. rewrite Hob. reflexivity.
  - destruct (Z.gtb_spec (y + 1) 0); [|lia].
    replace (y + 1 - 1) with y by lia. rewrite Hob. reflexivity.
Qed.

(** From a safe cell, a move that changed the position is undone by the
    opposite action: the next [step] with it brings the agent back. *)
Theorem step_then_opposite_returns
  (self : StaticGridEnv) (p : pos) (a : Z) :
  configured self -> state self = Some p -> safe p ->
  exists p' r d,
    step self a = (Ok (p', r, d, []), set_state self p') /\
    (p' <> p ->
     exists r' d',
       step (set_state self p') (opposite a) =
         (Ok (p, r', d', []), set_state self p)).
Proof.
  intros Hc Hs [Hg Hob]. rewrite (step_eq self a p Hs).
  do 3 eexists. split; [reflexivity|]. intros Hne.
  rewrite (step_eq (set_state self (landing self a p)) (opposite a)
             (landing self a p) eq_refl).
  assert (Hback : landing (set_state self (landing self a p)) (opposite a)
                    (landing self a p) = p).
  { destruct (landing_near self a p) as [E|E]; [contradiction|].
    apply (landing_back self a p _ Hc Hg Hob E). }
  rewrite Hback. do 2 eexists. reflexivity.
Qed.

Lemma step_then_opposite_returns_witness :
  exists p' r d,
    step (at_cell (6, 6)) 2 = (Ok (p', r, d, []), set_state (at_cell (6, 6)) p') /\
    (p' <> (6, 6) ->
     exists r' d',
       step (set_state (at_cell (6, 6)) p') (opposite 2) =
         (Ok ((6, 6), r', d', []), set_state (at_cell (6, 6)) (6, 6))).
Proof.
  apply (step_then_opposite_returns (at_cell (6, 6)) (6, 6) 2).
  - apply configured_set_state, configured_fresh.
  - reflexivity.
  - split; [unfold in_grid; simpl; lia | reflexivity].
Defined.

(** ** Episodes: how far a sequence of calls can go *)

Lemma manhattan_triangle (p q r : pos) :
  manhattan p r <= manhattan p q + manhattan q r.
Proof. unfold manhattan. lia. Qed.

Lemma steps_cons (self : StaticGridEnv) (a : Z) (actions : list Z) :
  steps self (a :: actions) =
    (fst (step self a) :: fst (steps (snd (step self a)) actions),
     snd (steps (snd (step self a)) actions)).
Proof.
  simpl. destruct (step self a) as [r self1]. simpl.
  destruct (steps self1 actions) as [rs self2]. reflexivity.
Qed.

Lemma steps_walk (actions : list Z) :
  forall (self : StaticGridEnv) (p : pos),
    state self = Some p ->
    exists q,
      state (snd (steps self actions)) = Some q /\
      goal (snd (steps self actions)) = goal self /\
      List.length (fst (steps self actions)) = List.length actions /\
      manhattan p q <= Z.of_nat (List.length actions) /\
      (existsb finished (fst (steps self actions)) = true ->
       manhattan p (goal self) <= Z.of_nat (List.length actions)).
Proof.
  induction actions as [|a actions IH]; intros self p Hs.
  - exists p. simpl. repeat split; auto.
    + unfold manhattan. lia.
    + discriminate.
  - rewrite steps_cons, (step_eq self a p Hs). simpl fst. simpl snd.
    set (p1 := landing self a p).
    assert (Hd : manhattan p p1 <= 1).
    { subst p1. destruct (landing_near self a p) as [E|E].
      - rewrite E. unfold manhattan. lia.
      - rewrite (moved_one_cell_manhattan a _ _ E). lia. }
    destruct (IH (set_state self p1) p1 eq_refl)
      as (q & Hq & Hg & Hlen & Hdist & Hfin).
    exists q. simpl goal in *.
    split; [exact Hq|]. split; [exact Hg|].
    split; [simpl; rewrite Hlen; reflexivity|].
    change (List.length (a :: actions)) with (S (List.length actions)).
    rewrite Nat2Z.inj_succ.
    pose proof (manhattan_triangle p p1 q) as T1.
    pose proof (manhattan_triangle p p1 (goal self)) as T2.
    split; [lia|].
    simpl existsb. intros Hex. apply orb_true_iff in Hex.
    destruct Hex as [Hex|Hex].
    + apply pos_eqb_eq in Hex. rewrite <- Hex. lia.
    + specialize (Hfin Hex). lia.
Qed.

(** A sequence of [n] calls of [step] moves the agent at most [n] cells
    from where it stood, and if one of the calls returns done = true, then
    [n] is at least the distance in moves from the start to the goal: no
    episode is shorter than that. *)
Theorem episode_at_least_distance
  (self : StaticGridEnv) (p : pos) (actions : list Z) :
  state self = Some p ->
  exists q,
    state (snd (steps self actions)) = Some q /\
    manhattan p q <= Z.of_nat (List.length actions) /\
    (existsb finished (fst (steps self actions)) = true ->
     manhattan p (goal self) <= Z.of_nat (List.length actions)).
Proof.
  intros Hs. destruct (steps_walk actions self p Hs)
    as (q & Hq & _ & _ & Hd & Hf).
  exists q. auto.
Qed.

Lemma episode_at_least_distance_witness :
  exists q,
    state (snd (steps (at_cell (7, 9)) [1; 1])) = Some q /\
    manhattan (7, 9) q <= Z.of_nat (List.length [1; 1]) /\
    (existsb finished (fst (steps (at_cell (7, 9)) [1; 1])) = true ->
     manhattan (7, 9) (goal (at_cell (7, 9))) <= Z.of_nat (List.length [1; 1])).
Proof.
  apply (episode_at_least_distance (at_cell (7, 9)) (7, 9) [1; 1]).
  reflexivity.
Defined.

(** ** The goal can be reached from every start *)

Lemma steps_configured (actions : list Z) :
  forall (self self' : StaticGridEnv),
    configured self -> configured self' -> state self = state self' ->
    fst (steps self actions) = fst (steps self' actions) /\
    state (snd (steps self actions)) = state (snd (steps self' actions)).
Proof.
  induction actions as [|a actions IH]; intros self self' Hc Hc' Hs.
  - simpl. auto.
  - rewrite !steps_cons. simpl fst. simpl snd.
    destruct (state self) as [p|] eqn:E.
    + symmetry in Hs.
      rewrite (step_eq self a p E), (step_eq self' a p Hs).
      simpl fst. simpl snd.
      rewrite (landing_configured self a p Hc).
      rewrite (landing_configured self' a p Hc').
      destruct Hc as (Hn & Ho & Hg). destruct Hc' as (Hn' & Ho' & Hg').
      rewrite Hg, Hg', Ho, Ho'.
      assert (Hcand : candidate self a p = candidate self' a p).
      { unfold candidate. rewrite Hn, Hn'. reflexivity. }
      rewrite Hcand.
      destruct (IH (set_state self (landing fresh a p))
                  (set_state self' (landing fresh a p))) as [H1 H2];
        try (repeat split; assumption); try reflexivity.
      rewrite H1, H2. auto.
    + symmetry in Hs. rewrite (step_unset self a E), (step_unset self' a Hs).
      simpl fst. simpl snd.
      destruct (IH self self') as [H1 H2]; try assumption.
      * rewrite E, Hs. reflexivity.
      * rewrite H1, H2. auto.
Qed.

Lemma in_cells (p : pos) : in_grid p -> In p cells.
Proof.
  destruct p as [x y]. intros [Hx Hy]. simpl in Hx, Hy.
  unfold cells. apply in_prod.
  - apply in_map_iff. exists (Z.to_nat x). split; [lia|].
    apply in_seq. lia.
  - apply in_map_iff. exists (Z.to_nat y). split; [lia|].
    apply in_seq. lia.
Qed.

Lemma route_ok_everywhere :
  forallb (fun p => mem p obstacle_set || pos_eqb p goal_cell || route_ok p)
    cells = true.
Proof. vm_compute. reflexivity. Qed.

(** From every safe cell but the goal, the actions of [route] (one per
    move of distance to the goal) lead the agent onto the goal: the
    last call, and no earlier one, returns done = true, and the rewards add
    up to 21 minus the distance.  With the bound above, the shortest episode
    from a cell has exactly as many steps as the cell is moves away. *)
Theorem goal_reachable_in_distance (self : StaticGridEnv) (p : pos) :
  configured self -> state self = Some p -> safe p -> p <> goal_cell ->
  let actions := route (Z.to_nat (manhattan p goal_cell)) p in
  let rs := fst (steps self actions) in
  state (snd (steps self actions)) = Some goal_cell /\
  Z.of_nat (List.length rs) = manhattan p goal_cell /\
  existsb finished (removelast rs) = false /\
  finished (last rs (Ok (p, 0, true, []))) = true /\
  total_reward rs = 21 - manhattan p goal_cell.
Proof.
  intros Hc Hs [Hg Hob] Hne actions rs.
  pose proof route_ok_everywhere as H.
  rewrite forallb_forall in H. specialize (H p (in_cells p Hg)).
  apply pos_eqb_neq in Hne.
  rewrite Hob, Hne in H. simpl in H. unfold route_ok in H.
  destruct (steps_configured actions self (at_cell p) Hc
              (configured_set_state fresh p configured_fresh) Hs)
    as [H1 H2].
  fold actions in H. subst rs. rewrite H1, H2.
  destruct (steps (at_cell p) actions) as [rs' self'] eqn:E.
  simpl fst. simpl snd.
  rewrite !andb_true_iff in H. destruct H as ((((Ha & Hb) & Hc') & Hd) & He).
  destruct (state self') as [q|]; [|discriminate].
  apply pos_eqb_eq in Ha. apply Z.eqb_eq in Hb, He.
  apply negb_true_iff in Hc'. subst q. auto.
Qed.

Lemma goal_reachable_in_distance_witness :
  state (snd (steps (at_cell (0, 1)) (route 17 (0, 1)))) = Some goal_cell /\
  Z.of_nat (List.length (fst (steps (at_cell (0, 1)) (route 17 (0, 1))))) =
    manhattan (0, 1) goal_cell /\
  existsb finished
    (removelast (fst (steps (at_cell (0, 1)) (route 17 (0, 1))))) = false /\
  finished (last (fst (steps (at_cell (0, 1)) (route 17 (0, 1))))
              (Ok ((0, 1), 0, true, []))) = true /\
  total_reward (fst (steps (at_cell (0, 1)) (route 17 (0, 1)))) =
    21 - manhattan (0, 1) goal_cell.
Proof.
  apply (goal_reachable_in_distance (at_cell (0, 1)) (0, 1)).
  - apply configured_set_state, configured_fresh.
  - reflexivity.
  - split; [unfold in_grid; simpl; lia | reflexivity].
  - discriminate.
Defined.

(** ** Whole runs *)

Section RunFacts.

Variable rng : Type.
Variable randint : Z -> Z -> rng -> Z * rng.

Local Abbreviation reset := (Env.reset rng randint).
Local Abbreviation run := (Env.run rng randint).

(** [reset] forgets where the agent stood: the position stored before the
    call changes nothing about what the call returns, stores and draws. *)
Theorem reset_ignores_position
  (fuel : nat) (self : StaticGridEnv) (p : pos) (g : rng) :
  reset fuel (set_state self p) g = reset fuel self g.
Proof.
  revert g. induction fuel as [|fuel IH]; intros g; [reflexivity|].
  rewrite !reset_S.
  change (Env.sample rng randint (set_state self p) g)
    with (Env.sample rng randint self g).
  destruct (Env.sample rng randint self g) as [q g'].
  change (free (set_state self p) q) with (free self q).
  destruct (free self q); [reflexivity | apply IH].
Qed.

Hypothesis randint_range : randint_in_range rng randint.

Lemma step_keeps_safe (self : StaticGridEnv) (p : pos) (a : Z) :
  configured self -> state self = Some p -> safe p ->
  exists p' r d,
    step self a = (Ok (p', r, d, []), set_state self p') /\ safe p'.
Proof.
  intros Hc Hs [Hg Hob]. rewrite (step_eq self a p Hs).
  do 3 eexists. split; [reflexivity|]. destruct p as [x y].
  destruct (landing_cases self a x y Hc Hg) as (Hin & _ & Hland).
  destruct Hland as [[_ ->]|[Hm ->]]; split; auto.
Qed.

Lemma run_from_safe (fuel : nat) (cs : list call) :
  forall self g os self' g',
    configured self ->
    (exists p, state self = Some p /\ safe p) ->
    run fuel self g cs = Some (os, self', g') ->
    Forall observed_safe os /\
    configured self' /\ exists q, state self' = Some q /\ safe q.
Proof.
  induction cs as [|c cs IH]; intros self g os self' g' Hc Hsafe H.
  - simpl in H. injection H as <- <- <-. auto.
  - destruct c as [|a]; simpl in H.
    + destruct (reset fuel self g) as [[[p self1] g1]|] eqn:E;
        [|discriminate].
      destruct (reset_returned_position rng randint randint_range
                  self fuel g p self1 g1 Hc E)
        as (Hs1 & Hin & Hob & Hne & _).
      destruct (reset_sound rng randint self fuel g p self1 g1 E)
        as (_ & _ & _ & _ & Hself & _).
      destruct (run fuel self1 g1 cs) as [[[os1 self2] g2]|] eqn:E1;
        [|discriminate].
      injection H as <- <- <-.
      destruct (IH self1 g1 os1 self2 g2) as (Hos & Hc2 & Hq);
        [ rewrite Hself; apply configured_set_state, Hc
        | exists p; split; [exact Hs1 | split; assumption]
        | exact E1 | ].
      split; [|auto]. constructor; [|exact Hos].
        simpl. split; [split; assumption | assumption].
    + destruct Hsafe as (p & Hs & Hp).
      destruct (step_keeps_safe self p a Hc Hs Hp) as (p' & r & d & E & Hp').
      rewrite E in H.
      destruct (run fuel (set_state self p') g cs) as [[[os1 self2] g2]|] eqn:E1;
        [|discriminate].
      injection H as <- <- <-.
      destruct (IH (set_state self p') g os1 self2 g2) as (Hos & Hc2 & Hq);
        [ apply configured_set_state, Hc
        | exists p'; split; [reflexivity | exact Hp']
        | exact E1 | ].
      split; [|auto]. constructor; [exact Hp' | exact Hos].
Qed.

(** In a run of calls that begins with [reset], whatever calls follow and
    wherever the agent stood before, [step] never raises and every position
    [reset] or [step] returns is inside the grid and no obstacle (and what
    [reset] returns is not the goal); the same holds of the position the
    environment is left with. *)
Theorem run_after_reset_is_safe
  (fuel : nat) (self : StaticGridEnv) (g : rng) (cs : list call)
  (os : list observed) (self' : StaticGridEnv) (g' : rng) :
  configured self ->
  run fuel self g (Reset :: cs) = Some (os, self', g') ->
  Forall observed_safe os /\
  exists q, state self' = Some q /\ safe q.
Proof.
  intros Hc H. simpl in H.
  destruct (reset fuel self g) as [[[p self1] g1]|] eqn:E; [|discriminate].
  destruct (reset_returned_position rng randint randint_range
              self fuel g p self1 g1 Hc E)
    as (Hs1 & Hin & Hob & Hne & _).
  destruct (reset_sound rng randint self fuel g p self1 g1 E)
    as (_ & _ & _ & _ & Hself & _).
  destruct (run fuel self1 g1 cs) as [[[os1 self2] g2]|] eqn:E1;
    [|discriminate].
  injection H as <- <- <-.
  destruct (run_from_safe fuel cs self1 g1 os1 self2 g2) as (Hos & _ & Hq);
    [ rewrite Hself; apply configured_set_state, Hc
    | exists p; split; [exact Hs1 | split; assumption]
    | exact E1 | ].
  split; [|exact Hq]. constructor; [|exact Hos].
    simpl. split; [split; assumption | assumption].
Qed.

End RunFacts.

Lemma reset_ignores_position_example :
  Env.reset Lcg.rng Lcg.randint 2 (at_cell (9, 9)) (Lcg.np_seed 8) =
    Some ((4, 3), at_cell (4, 3),
          Env.skip Lcg.rng Lcg.randint fresh 2 (Lcg.np_seed 8)).
Proof. reflexivity. Qed.

Lemma run_after_reset_is_safe_witness :
  Forall observed_safe
    [ResetReturned (4, 3);
     StepReturned (Ok ((4, 3), -5, false, []));
     StepReturned (Ok ((5, 3), -1, false, []));
     ResetReturned (6, 3);
     StepReturned (Ok ((5, 3), -1, false, []))] /\
  exists q,
    state (at_cell (5, 3)) = Some q /\ safe q.
Proof.
  apply (run_after_reset_is_safe Lcg.rng Lcg.randint lcg_in_range 2 fresh
           (Lcg.np_seed 8) [Step 0; Step 1; Reset; Step 0]
           _ _ (Env.skip Lcg.rng Lcg.randint fresh 3 (Lcg.np_seed 8))).
  - apply configured_fresh.
  - reflexivity.
Defined.

(** * Properties of [render] and [close] *)

Section RenderFacts.

Variable float : Type.

Local Abbreviation render := (Render.render float).
Local Abbreviation close := (Render.close float).
Local Abbreviation setup := (Render.setup float).
Local Abbreviation grid_lines := (Render.grid_lines float).
Local Abbreviation fixtures := (Render.fixtures float).
Local Abbreviation agent_and_title := (Render.agent_and_title float).
Local Abbreviation is_setup := (Render.is_setup float).
Local Abbreviation is_drawing := (Render.is_drawing float).
Local Abbreviation is_flip := (Render.is_flip float).
Local Abbreviation is_init := (Render.is_init float).
Local Abbreviation is_board := (Render.is_board float).
Local Abbreviation extent := (Render.extent float).

(** Every image loads. *)
Local Abbreviation all_there := (fun _ _ : string => true).

Lemma in_range (n x : Z) : In x (Render.range n) <-> 0 <= x < n.
Proof.
  unfold Render.range. rewrite in_map_iff. split.
  - intros (k & <- & Hk). apply in_seq in Hk. lia.
  - intros H. exists (Z.to_nat x). split; [lia|]. apply in_seq. lia.
Qed.

Lemma set_render_initialized_same (self : StaticGridEnv) :
  Render.set_render_initialized self (render_initialized self) = self.
Proof. destruct self. reflexivity. Qed.

(** ** The setup and the image files *)

Ltac by_files loadable :=
  unfold Render.setup, Render.image_files, Render.load_images;
  destruct (loadable "images"%string "agent.png"%string) eqn:?;
  destruct (loadable "images"%string "goal.png"%string) eqn:?;
  destruct (loadable "images"%string "obstacle.png"%string) eqn:?.

Lemma all_images (loadable : string -> string -> bool) :
  forallb (loadable "images"%string) Render.image_files = true <->
  loadable "images"%string "agent.png"%string = true /\
  loadable "images"%string "goal.png"%string = true /\
  loadable "images"%string "obstacle.png"%string = true.
Proof.
  unfold Render.image_files. simpl. rewrite !andb_true_iff. tauto.
Qed.

Lemma setup_complete (self : StaticGridEnv)
  (loadable : string -> string -> bool) :
  forallb (loadable "images"%string) Render.image_files = true ->
  setup self loadable = (fst (setup self all_there), None).
Proof.
  intros H. apply all_images in H. destruct H as (H1 & H2 & H3).
  unfold Render.setup, Render.image_files, Render.load_images.
  rewrite H1, H2, H3. reflexivity.
Qed.

Lemma setup_broken (self : StaticGridEnv)
  (loadable : string -> string -> bool) :
  forallb (loadable "images"%string) Render.image_files = false ->
  exists file,
    snd (setup self loadable) = Some file /\
    In file Render.image_files /\
    loadable "images"%string file = false.
Proof.
  intros H.
  assert (Hn : ~ (loadable "images"%string "agent.png"%string = true /\
                  loadable "images"%string "goal.png"%string = true /\
                  loadable "images"%string "obstacle.png"%string = true)).
  { rewrite <- all_images, H. discriminate. }
  by_files loadable; try (exfalso; apply Hn; auto; fail); simpl.
  all: first
    [ exists "agent.png"%string; simpl; auto; fail
    | exists "goal.png"%string; simpl; auto; fail
    | exists "obstacle.png"%string; simpl; auto 6 ].
Qed.

(** Whether it gets through or not, the setup makes setup calls only, with
    [pygame.init()] first and the window next, and draws nothing. *)
Lemma setup_calls (self : StaticGridEnv)
  (loadable : string -> string -> bool) :
  filter is_setup (fst (setup self loadable)) = fst (setup self loadable) /\
  existsb is_drawing (fst (setup self loadable)) = false /\
  existsb is_flip (fst (setup self loadable)) = false /\
  existsb is_init (fst (setup self loadable)) = true /\
  In (Render.SetMode float (grid_size self * cell_size self)
        (grid_size self * cell_size self + 50))
     (fst (setup self loadable)) /\
  forall e, In e (fst (setup self loadable)) -> extent self e = None.
Proof.
  by_files loadable; simpl; repeat split; auto;
    intros e He; decompose [or] He; subst; try reflexivity; contradiction.
Qed.

(** ** [render], case by case *)

(** When the setup gets through. *)
Lemma render_through (self : StaticGridEnv)
  (loadable : string -> string -> bool) (events : list bool)
  (delay : float) (mode : string) (episode : Z) (learning_type : string)
  (availability accuracy : option float) :
  Render.setup_succeeds self loadable = true ->
  render self loadable events delay mode episode learning_type
    availability accuracy =
    ((if render_initialized self then [] else fst (setup self all_there)) ++
     [Render.EventGet float] ++
     (if existsb (fun quit => quit) events then [Render.PygameQuit float]
      else
        [Render.Fill float 255 255 255] ++ grid_lines self ++
        fixtures self ++
        match state self with
        | None => []
        | Some st =>
            agent_and_title self st delay episode availability accuracy
        end),
     if existsb (fun quit => quit) events then Render.SystemExit
     else
       match state self with
       | None =>
           Render.Raised (TypeError "'NoneType' object is not subscriptable")
       | Some _ => Render.Returned
       end,
     Render.set_render_initialized self true).
Proof.
  unfold Render.setup_succeeds. intros H.
  unfold Render.render, Render.agent_and_title.
  destruct (render_initialized self) eqn:Hf.
  - replace (Render.set_render_initialized self true) with self
      by (rewrite <- Hf; symmetry; apply set_render_initialized_same).
    destruct (existsb (fun quit => quit) events);
      [|destruct (state self)];
      cbn [app]; rewrite <- ?app_assoc, ?app_nil_r; reflexivity.
  - simpl in H. rewrite (setup_complete self loadable H).
    destruct (existsb (fun quit => quit) events); simpl state;
      [|destruct (state self)];
      rewrite <- ?app_assoc, ?app_nil_r; reflexivity.
Qed.

(** When an image fails to load. *)
Lemma render_broken (self : StaticGridEnv)
  (loadable : string -> string -> bool) (events : list bool)
  (delay : float) (mode : string) (episode : Z) (learning_type : string)
  (availability accuracy : option float) :
  Render.setup_succeeds self loadable = false ->
  render_initialized self = false /\
  exists file,
    render self loadable events delay mode episode learning_type
      availability accuracy =
      (fst (setup self loadable), Render.ImageLoadError "images" file, self) /\
    In file Render.image_files /\
    loadable "images"%string file = false.
Proof.
  unfold Render.setup_succeeds. intros H. apply orb_false_iff in H.
  destruct H as [Hf H]. split; [exact Hf|].
  destruct (setup_broken self loadable H) as (file & Hs & Hin & Hl).
  exists file. split; [|auto]. unfold Render.render. rewrite Hf.
  destruct (setup self loadable) as [log failed]. simpl in Hs. subst failed.
  reflexivity.
Qed.

(** [render] leaves the object as it was but for the flag. *)
Lemma render_object (self : StaticGridEnv)
  (loadable : string -> string -> bool) (events : list bool)
  (delay : float) (mode : string) (episode : Z) (learning_type : string)
  (availability accuracy : option float) :
  snd (render self loadable events delay mode episode learning_type
         availability accuracy) =
    Render.set_render_initialized self (Render.setup_succeeds self loadable).
Proof.
  destruct (Render.setup_succeeds self loadable) eqn:E.
  - rewrite render_through by exact E. reflexivity.
  - destruct (render_broken self loadable events delay mode episode
                learning_type availability accuracy E)
      as (Hf & file & -> & _).
    simpl. rewrite <- Hf. symmetry. apply set_render_initialized_same.
Qed.

Lemma filter_map_none {A B : Type} (f : B -> bool) (h : A -> B)
  (l : list A) :
  (forall a, f (h a) = false) -> filter f (map h l) = [].
Proof.
  intros H. induction l as [|a l IH]; [reflexivity|].
  simpl. rewrite H. exact IH.
Qed.

Lemma filter_flat_map_none {A B : Type} (f : B -> bool) (h : A -> list B)
  (l : list A) :
  (forall a, filter f (h a) = []) -> filter f (flat_map h l) = [].
Proof.
  intros H. induction l as [|a l IH]; [reflexivity|].
  simpl. rewrite filter_app, H, IH. reflexivity.
Qed.

Lemma filter_setup_grid_lines (self : StaticGridEnv) :
  filter is_setup (grid_lines self) = [].
Proof.
  unfold Render.grid_lines. apply filter_flat_map_none. intros x.
  apply filter_map_none. reflexivity.
Qed.

Lemma filter_setup_fixtures (self : StaticGridEnv) :
  filter is_setup (fixtures self) = [].
Proof.
  unfold Render.fixtures. simpl. apply filter_map_none. reflexivity.
Qed.

(** The setup calls in the log of a [render]. *)
Lemma render_setup_calls (self : StaticGridEnv)
  (loadable : string -> string -> bool) (events : list bool)
  (delay : float) (mode : string) (episode : Z) (learning_type : string)
  (availability accuracy : option float) :
  filter is_setup
    (fst (fst (render self loadable events delay mode episode learning_type
                 availability accuracy))) =
    if render_initialized self then [] else fst (setup self loadable).
Proof.
  destruct (Render.setup_succeeds self loadable) eqn:E.
  - rewrite render_through by exact E. cbn [fst].
    assert (Hrest : forall l,
      filter is_setup
        (l ++ [Render.EventGet float] ++
         (if existsb (fun quit => quit) events
          then [Render.PygameQuit float]
          else
            [Render.Fill float 255 255 255] ++ grid_lines self ++
            fixtures self ++
            match state self with
            | None => []
            | Some st =>
                agent_and_title self st delay episode availability accuracy
            end)) = filter is_setup l).
    { intros l. rewrite filter_app.
      destruct (existsb (fun quit => quit) events);
        [simpl; apply app_nil_r|].
      rewrite !filter_app, filter_setup_grid_lines, filter_setup_fixtures.
      destruct (state self); simpl; apply app_nil_r. }
    rewrite Hrest. unfold Render.setup_succeeds in E.
    destruct (render_initialized self); [reflexivity|]. simpl in E.
    rewrite (setup_complete self loadable E). cbn [fst].
    apply (setup_calls self all_there).
  - destruct (render_broken self loadable events delay mode episode
                learning_type availability accuracy E)
      as (Hf & file & -> & _).
    cbn [fst]. rewrite Hf. apply (setup_calls self loadable).
Qed.

(** ** Lazy setup *)

(** [render] makes the setup calls exactly when the flag is not set, as far
    as the image loads let it get, and the flag is set afterwards exactly
    when the setup had been done before or has now got through.  Then a
    second [render] makes no setup call; when an image failed to load the
    flag stays unset and the next [render] starts the setup again; and a
    [render] after [close] starts it again in any case. *)
Theorem render_sets_up_once
  (self : StaticGridEnv) (loadable loadable' : string -> string -> bool)
  (events events' : list bool)
  (delay : float) (mode : string) (episode : Z) (learning_type : string)
  (availability accuracy : option float) :
  let '(log, _, self1) :=
    render self loadable events delay mode episode learning_type
      availability accuracy in
  filter is_setup log =
    (if render_initialized self then [] else fst (setup self loadable)) /\
  render_initialized self1 = Render.setup_succeeds self loadable /\
  filter is_setup
    (fst (fst (render self1 loadable' events' delay mode episode
                 learning_type availability accuracy))) =
    (if Render.setup_succeeds self loadable then []
     else fst (setup self loadable')) /\
  filter is_setup
    (fst (fst (render (snd (close self1)) loadable' events' delay mode
                 episode learning_type availability accuracy))) =
    fst (setup self loadable').
Proof.
  pose proof (render_setup_calls self loadable events delay mode episode
                learning_type availability accuracy) as H1.
  pose proof (render_object self loadable events delay mode episode
                learning_type availability accuracy) as H2.
  destruct (render self loadable events delay mode episode learning_type
              availability accuracy) as [[log out] self1].
  cbn [fst snd] in H1, H2. subst self1.
  split; [exact H1|]. split; [reflexivity|]. split.
  - rewrite render_setup_calls. simpl render_initialized.
    destruct (Render.setup_succeeds self loadable); reflexivity.
  - rewrite render_setup_calls. unfold Render.close.
    simpl render_initialized.
    destruct (Render.setup_succeeds self loadable); reflexivity.
Qed.

(** ** Where [render] draws *)

Lemma grid_lines_in_window (self : StaticGridEnv) (e : Render.effect float)
  (r : Render.rectangle) :
  0 <= cell_size self ->
  In e (grid_lines self) -> extent self e = Some r ->
  Render.in_window self r /\ Render.below_strip r.
Proof.
  intros Hc H He. unfold Render.grid_lines in H.
  apply in_flat_map in H. destruct H as (x & Hx & H).
  apply in_map_iff in H. destruct H as (y & <- & Hy).
  apply in_range in Hx, Hy. simpl in He. injection He as <-.
  unfold Render.in_window, Render.below_strip. nia.
Qed.

Lemma picture_in_window (self : StaticGridEnv) (p : pos) :
  0 <= cell_size self -> Render.on_grid self p ->
  Render.in_window self
    (snd p * cell_size self, fst p * cell_size self + 50,
     cell_size self, cell_size self) /\
  Render.below_strip
    (snd p * cell_size self, fst p * cell_size self + 50,
     cell_size self, cell_size self).
Proof.
  intros Hc [Hx Hy]. unfold Render.in_window, Render.below_strip. nia.
Qed.

Lemma fixtures_in_window (self : StaticGridEnv) (e : Render.effect float)
  (r : Render.rectangle) :
  0 <= cell_size self ->
  Render.on_grid self (goal self) ->
  Forall (Render.on_grid self) (obstacles self) ->
  In e (fixtures self) -> extent self e = Some r ->
  Render.in_window self r /\ Render.below_strip r.
Proof.
  intros Hc Hg Ho H He. unfold Render.fixtures in H.
  destruct H as [<-|H].
  - simpl in He. injection He as <-. apply picture_in_window; assumption.
  - apply in_map_iff in H. destruct H as (obs & <- & Hobs).
    simpl in He. injection He as <-. apply picture_in_window; [assumption|].
    rewrite Forall_forall in Ho. apply Ho, Hobs.
Qed.

Lemma agent_and_title_in_window (self : StaticGridEnv) (p : pos)
  (delay : float) (episode : Z) (availability accuracy : option float)
  (e : Render.effect float) (r : Render.rectangle) :
  0 <= cell_size self -> Render.on_grid self p ->
  In e (agent_and_title self p delay episode availability accuracy) ->
  extent self e = Some r ->
  Render.in_window self r /\ (is_board e = true -> Render.below_strip r).
Proof.
  intros Hc Hp H He. pose proof Hp as [Hx Hy].
  unfold Render.agent_and_title in H. simpl in H.
  decompose [or] H; subst; simpl in He; try discriminate;
    try contradiction; injection He as <-.
  - destruct (picture_in_window self p Hc Hp). auto.
  - split; [|discriminate]. unfold Render.in_window. nia.
Qed.

(** Whatever the grid size and the cell size (not negative), with goal,
    obstacles and agent on the grid: every cell outline, every picture of
    goal, obstacle and agent and the overlay that [render] draws lies inside
    the window of [grid_size * cell_size] by [grid_size * cell_size + 50]
    pixels that the setup opens, outlines and pictures below the 50 pixel
    strip of the title; the pictures are scaled to one cell; and the agent
    in row [x] and column [y] is drawn at pixel [(y * cell_size,
    x * cell_size + 50)].  The rendered title, whose extent is the font's,
    is not covered. *)
Theorem render_draws_inside_window
  (self : StaticGridEnv) (p : pos)
  (loadable : string -> string -> bool) (events : list bool)
  (delay : float) (mode : string) (episode : Z) (learning_type : string)
  (availability accuracy : option float) :
  0 <= cell_size self ->
  Render.on_grid self (goal self) ->
  Forall (Render.on_grid self) (obstacles self) ->
  state self = Some p -> Render.on_grid self p ->
  let log :=
    fst (fst (render self loadable events delay mode episode learning_type
                availability accuracy)) in
  (forall e r, In e log -> extent self e = Some r ->
     Render.in_window self r /\
     (is_board e = true -> Render.below_strip r)) /\
  (render_initialized self = false ->
   In (Render.SetMode float (grid_size self * cell_size self)
         (grid_size self * cell_size self + 50)) log) /\
  (render_initialized self = false ->
   Render.setup_succeeds self loadable = true ->
   In (Render.ScaleImage float Render.AgentImage
         (cell_size self) (cell_size self)) log /\
   In (Render.ScaleImage float Render.GoalImage
         (cell_size self) (cell_size self)) log /\
   In (Render.ScaleImage float Render.ObstacleImage
         (cell_size self) (cell_size self)) log) /\
  (Render.setup_succeeds self loadable = true ->
   existsb (fun quit => quit) events = false ->
   In (Render.Blit float Render.AgentImage (snd p * cell_size self)
         (fst p * cell_size self + 50)) log).
Proof.
  intros Hc Hg Ho Hs Hp log. subst log.
  destruct (Render.setup_succeeds self loadable) eqn:E.
  - rewrite render_through by exact E. cbn [fst]. rewrite Hs.
    split; [|split; [|split]].
    + intros e r He Hr.
      apply in_app_or in He. destruct He as [He|He].
      { destruct (render_initialized self); [contradiction|].
        destruct (setup_calls self all_there) as (_ & _ & _ & _ & _ & Hnone).
        rewrite (Hnone e He) in Hr. discriminate. }
      apply in_app_or in He. destruct He as [[<-|[]]|He];
        [discriminate|].
      destruct (existsb (fun quit => quit) events).
      { destruct He as [<-|[]]. discriminate. }
      apply in_app_or in He. destruct He as [[<-|[]]|He];
        [discriminate|].
      apply in_app_or in He. destruct He as [He|He].
      { destruct (grid_lines_in_window self e r Hc He Hr). auto. }
      apply in_app_or in He. destruct He as [He|He].
      { destruct (fixtures_in_window self e r Hc Hg Ho He Hr). auto. }
      apply (agent_and_title_in_window self p delay episode availability
               accuracy e r Hc Hp He Hr).
    + intros Hf. rewrite Hf. apply in_or_app. left.
      apply (setup_calls self all_there).
    + intros Hf _. rewrite Hf.
      repeat split; apply in_or_app; left; simpl; auto 12.
    + intros _ ->. apply in_or_app. right. apply in_or_app. right.
      apply in_or_app. right. apply in_or_app. right.
      apply in_or_app. right. left. reflexivity.
  - destruct (render_broken self loadable events delay mode episode
                learning_type availability accuracy E)
      as (Hf & file & -> & _).
    cbn [fst]. split; [|split; [|split]].
    + intros e r He Hr.
      destruct (setup_calls self loadable) as (_ & _ & _ & _ & _ & Hnone).
      rewrite (Hnone e He) in Hr. discriminate.
    + intros _. apply (setup_calls self loadable).
    + intros _ H. discriminate.
    + intros H. discriminate.
Qed.

Lemma existsb_map_false {A B : Type} (f : B -> bool) (h : A -> B)
  (l : list A) :
  (forall a, f (h a) = false) -> existsb f (map h l) = false.
Proof.
  intros H. induction l as [|a l IH]; [reflexivity|].
  simpl. rewrite H. exact IH.
Qed.

Lemma existsb_flat_map_false {A B : Type} (f : B -> bool) (h : A -> list B)
  (l : list A) :
  (forall a, existsb f (h a) = false) -> existsb f (flat_map h l) = false.
Proof.
  intros H. induction l as [|a l IH]; [reflexivity|].
  simpl. rewrite existsb_app, H, IH. reflexivity.
Qed.

Lemma no_flip_before_agent (self : StaticGridEnv) :
  existsb is_flip (grid_lines self) = false /\
  existsb is_flip (fixtures self) = false.
Proof.
  split.
  - apply existsb_flat_map_false. intros x.
    apply existsb_map_false. reflexivity.
  - unfold Render.fixtures. simpl. apply existsb_map_false. reflexivity.
Qed.

(** ** [render] before [reset] *)

(** On an environment that has no agent position yet, [render] (the setup
    done before or getting through now, no QUIT event pending) raises
    [TypeError] when it reaches the agent: by then the flag is set and the
    goal has been drawn, but the display is never flipped, so nothing of the
    frame is shown. *)
Theorem render_before_reset_fails
  (self : StaticGridEnv)
  (loadable : string -> string -> bool) (events : list bool)
  (delay : float) (mode : string) (episode : Z) (learning_type : string)
  (availability accuracy : option float) :
  state self = None ->
  existsb (fun quit => quit) events = false ->
  Render.setup_succeeds self loadable = true ->
  let '(log, out, self') :=
    render self loadable events delay mode episode learning_type
      availability accuracy in
  out = Render.Raised (TypeError "'NoneType' object is not subscriptable") /\
  self' = Render.set_render_initialized self true /\
  existsb is_flip log = false /\
  In (Render.Blit float Render.GoalImage (snd (goal self) * cell_size self)
        (fst (goal self) * cell_size self + 50)) log.
Proof.
  intros Hs Hq E. rewrite render_through by exact E. rewrite Hs, Hq.
  destruct (no_flip_before_agent self) as (F2 & F3).
  split; [reflexivity|]. split; [reflexivity|]. split.
  - rewrite !existsb_app, F2, F3.
    destruct (render_initialized self); [reflexivity|].
    destruct (setup_calls self all_there) as (_ & _ & F1 & _).
    rewrite F1. reflexivity.
  - apply in_or_app. right. apply in_or_app. right.
    apply in_or_app. right. apply in_or_app. right.
    apply in_or_app. left. left. reflexivity.
Qed.

(** ** A QUIT event *)

(** When a QUIT event is pending and the setup has been done before or gets
    through now, [render] shuts pygame down and ends the interpreter before
    it draws anything; the flag is left set. *)
Theorem render_quit_event
  (self : StaticGridEnv)
  (loadable : string -> string -> bool) (events : list bool)
  (delay : float) (mode : string) (episode : Z) (learning_type : string)
  (availability accuracy : option float) :
  existsb (fun quit => quit) events = true ->
  Render.setup_succeeds self loadable = true ->
  let '(log, out, self') :=
    render self loadable events delay mode episode learning_type
      availability accuracy in
  out = Render.SystemExit /\
  last log (Render.Flip float) = Render.PygameQuit float /\
  existsb is_drawing log = false /\
  render_initialized self' = true.
Proof.
  intros Hq E. rewrite render_through by exact E. rewrite Hq.
  split; [reflexivity|].
  destruct (render_initialized self); repeat split; reflexivity.
Qed.

(** ** Rendering and the simulation *)

Lemma step_set_render_initialized (self : StaticGridEnv) (b : bool) (a : Z) :
  step (Render.set_render_initialized self b) a =
    (fst (step self a),
     Render.set_render_initialized (snd (step self a)) b).
Proof.
  unfold step. simpl state. destruct (state self) as [[x y]|];
    [|reflexivity].
  change (candidate (Render.set_render_initialized self b) a (x, y))
    with (candidate self a (x, y)).
  destruct (candidate self a (x, y)) as [cx cy]. simpl obstacles.
  destruct (mem (cx, cy) (obstacles self)); simpl;
    match goal with |- context [pos_eqb ?u ?v] => destruct (pos_eqb u v) end;
    reflexivity.
Qed.

(** [render] and [close] touch nothing of the simulation: whatever [render]
    did (returned, raised, failed on an image or quit) and whether or not
    [close] followed, the next [step] returns exactly what it would have
    returned without them, and stores the same position. *)
Theorem render_and_close_keep_simulation
  (self : StaticGridEnv)
  (loadable : string -> string -> bool) (events : list bool)
  (delay : float) (mode : string) (episode : Z) (learning_type : string)
  (availability accuracy : option float) (a : Z) :
  let rendered :=
    snd (render self loadable events delay mode episode learning_type
           availability accuracy) in
  let closed := snd (close rendered) in
  state rendered = state self /\ state closed = state self /\
  fst (step rendered a) = fst (step self a) /\
  fst (step closed a) = fst (step self a) /\
  state (snd (step rendered a)) = state (snd (step self a)) /\
  state (snd (step closed a)) = state (snd (step self a)).
Proof.
  intros rendered closed. subst closed rendered.
  rewrite render_object. unfold Render.close. simpl render_initialized.
  destruct (Render.setup_succeeds self loadable);
    cbv iota; simpl snd; rewrite !step_set_render_initialized;
    simpl; repeat split; reflexivity.
Qed.

(** ** Closing *)

(** [close] quits pygame exactly when the flag is set, and clears it.  After
    a [render] whose setup had been done or got through, the first [close]
    quits pygame once and a second does nothing.  After a [render] that
    failed on an image, [pygame.init()] has been called but the flag is not
    set, so [close] does nothing: pygame is not shut down.  A [close] on an
    environment that was never rendered does nothing either. *)
Theorem close_quits_once
  (self : StaticGridEnv)
  (loadable : string -> string -> bool) (events : list bool)
  (delay : float) (mode : string) (episode : Z) (learning_type : string)
  (availability accuracy : option float) :
  let '(log, _, rendered) :=
    render self loadable events delay mode episode learning_type
      availability accuracy in
  fst (close rendered) =
    (if Render.setup_succeeds self loadable
     then [Render.PygameQuit float] else []) /\
  render_initialized (snd (close rendered)) = false /\
  close (snd (close rendered)) = ([], snd (close rendered)) /\
  close (snd (close self)) = ([], snd (close self)) /\
  close fresh = ([], fresh) /\
  (if Render.setup_succeeds self loadable then True
   else existsb is_init log = true /\ close rendered = ([], rendered)).
Proof.
  pose proof (render_object self loadable events delay mode episode
                learning_type availability accuracy) as Hobj.
  destruct (Render.setup_succeeds self loadable) eqn:E.
  - rewrite render_through in * by exact E. cbn [snd] in Hobj.
    repeat split; try reflexivity.
    unfold Render.close. destruct (render_initialized self) eqn:Ef.
    + reflexivity.
    + simpl. rewrite Ef. reflexivity.
  - destruct (render_broken self loadable events delay mode episode
                learning_type availability accuracy E)
      as (Hf & file & Hr & _).
    rewrite Hr in *. cbn [snd] in Hobj.
    unfold Render.close. rewrite Hf. cbn [fst snd]. rewrite Hf.
    repeat split; try reflexivity.
    apply (setup_calls self loadable).
Qed.

End RenderFacts.

(** The environment of the default layout, 64 pixel cells, agent in the
    bottom left cell: the agent is drawn at pixel (0, 626), inside the
    640 x 690 window. *)
Lemma render_draws_inside_window_witness :
  (forall e r,
     In e (fst (fst (Render.render Z (at_cell (9, 0)) (fun _ _ => true)
                       [false] 1 "human" 0 "Q-learning" None None))) ->
     Render.extent Z (at_cell (9, 0)) e = Some r ->
     Render.in_window (at_cell (9, 0)) r /\
     (Render.is_board Z e = true -> Render.below_strip r)) /\
  In (Render.SetMode Z 640 690)
     (fst (fst (Render.render Z (at_cell (9, 0)) (fun _ _ => true)
                  [false] 1 "human" 0 "Q-learning" None None))) /\
  In (Render.Blit Z Render.AgentImage 0 626)
     (fst (fst (Render.render Z (at_cell (9, 0)) (fun _ _ => true)
                  [false] 1 "human" 0 "Q-learning" None None))) /\
  Render.in_window (at_cell (9, 0)) (0, 626, 64, 64).
Proof.
  destruct (render_draws_inside_window Z (at_cell (9, 0)) (9, 0)
              (fun _ _ => true) [false] 1 "human" 0 "Q-learning" None None)
    as (H1 & H2 & _ & H4).
  - simpl. lia.
  - unfold Render.on_grid. simpl. lia.
  - repeat constructor; simpl; lia.
  - reflexivity.
  - unfold Render.on_grid. simpl. lia.
  - split; [exact H1|]. split; [apply H2; reflexivity|].
    split; [apply H4; reflexivity|]. simpl. lia.
Defined.

Lemma render_before_reset_fails_witness :
  let '(log, out, self') :=
    Render.render Z fresh (fun _ _ => true) [] 1 "human" 0 "Q-learning"
      (Some 1) None in
  out = Render.Raised (TypeError "'NoneType' object is not subscriptable") /\
  self' = Render.set_render_initialized fresh true /\
  existsb (Render.is_flip Z) log = false /\
  In (Render.Blit Z Render.GoalImage (snd (goal fresh) * cell_size fresh)
        (fst (goal fresh) * cell_size fresh + 50)) log.
Proof.
  apply (render_before_reset_fails Z fresh (fun _ _ => true) [] 1 "human" 0
           "Q-learning" (Some 1) None); reflexivity.
Defined.

Lemma render_quit_event_witness :
  let '(log, out, self') :=
    Render.render Z (at_cell (2, 3)) (fun _ _ => true) [false; true] 1
      "human" 4 "SARSA" None None in
  out = Render.SystemExit /\
  last log (Render.Flip Z) = Render.PygameQuit Z /\
  existsb (Render.is_drawing Z) log = false /\
  render_initialized self' = true.
Proof.
  apply (render_quit_event Z (at_cell (2, 3)) (fun _ _ => true)
           [false; true] 1 "human" 4 "SARSA" None None); reflexivity.
Defined.

(** A missing goal picture: the first [render] fails in the setup, the flag
    stays unset, and [close] does not quit pygame. *)
Example render_without_goal_picture :
  Render.render Z (at_cell (2, 3))
    (fun _ file => negb (file =? "goal.png")%string)
    [] 1 "human" 0 "SARSA" None None =
    ([Render.PygameInit Z; Render.SetMode Z 640 690;
      Render.LoadImage Z "images" "agent.png";
      Render.LoadImage Z "images" "goal.png"],
     Render.ImageLoadError "images" "goal.png", at_cell (2, 3)) /\
  Render.close Z (at_cell (2, 3)) = ([], at_cell (2, 3)).
Proof. split; reflexivity. Qed.

(** * Further properties of [plot_comparison_with_baseline] *)

Section PlotColumns.

Variable value : Type.
Variable value_eqb : value -> value -> bool.

Local Abbreviation plot := (Utils.plot_comparison_with_baseline value value_eqb).
Local Abbreviation lookup := (Utils.lookup value).
Local Abbreviation loc := (Utils.loc value).
Local Abbreviation keep := (Utils.keep value).

(** [df.loc] keeps every column, cut down to the kept rows. *)
Lemma lookup_loc (name : string) (df : Utils.DataFrame value)
  (mask : list bool) :
  lookup name (loc df mask) = option_map (keep mask) (lookup name df).
Proof.
  induction df as [|[n col] df IH]; [reflexivity|].
  simpl. destruct (n =? name)%string; [reflexivity | exact IH].
Qed.

Lemma bind_ok {A B : Type} (l : list (Utils.effect value)) (a : A)
  (k : A -> Utils.M value B) :
  Utils.bind value (l, Ok a) k = (l ++ fst (k a), snd (k a)).
Proof. unfold Utils.bind. destruct (k a). reflexivity. Qed.

Lemma bind_raises_l {A B : Type} (m : Utils.M value A)
  (k : A -> Utils.M value B) :
  Utils.raises value m -> Utils.raises value (Utils.bind value m k).
Proof.
  intros [e H]. destruct m as [l r]. simpl in H. subst r.
  exists e. reflexivity.
Qed.

Lemma bind_raises_r {A B : Type} (m : Utils.M value A)
  (k : A -> Utils.M value B) :
  (forall a, Utils.raises value (k a)) ->
  Utils.raises value (Utils.bind value m k).
Proof.
  intros H. destruct m as [l [a|e]].
  - rewrite bind_ok. exact (H a).
  - exists e. reflexivity.
Qed.

Lemma getitem_missing (df : Utils.DataFrame value) (c : string) :
  lookup c df = None -> Utils.raises value (Utils.getitem value df c).
Proof.
  intros H. unfold Utils.getitem, Utils.emit. rewrite bind_ok, H.
  exists (KeyError c). reflexivity.
Qed.

Lemma getitem_loc_missing (df : Utils.DataFrame value) (mask : list bool)
  (c : string) :
  lookup c df = None ->
  Utils.raises value (Utils.getitem value (loc df mask) c).
Proof.
  intros H. apply getitem_missing. rewrite lookup_loc, H. reflexivity.
Qed.

Lemma getitem_present (df : Utils.DataFrame value) (c : string)
  (col : list value) :
  lookup c df = Some col ->
  Utils.getitem value df c = ([Utils.ReadColumn value c], Ok col).
Proof.
  intros H. unfold Utils.getitem, Utils.emit. rewrite bind_ok, H.
  reflexivity.
Qed.

Lemma getitem_loc_present (df : Utils.DataFrame value) (mask : list bool)
  (c : string) (col : list value) :
  lookup c df = Some col ->
  Utils.getitem value (loc df mask) c =
    ([Utils.ReadColumn value c], Ok (keep mask col)).
Proof.
  intros H. apply getitem_present. rewrite lookup_loc, H. reflexivity.
Qed.

Lemma bind_raises_only_missing {A B : Type} (df : Utils.DataFrame value)
  (m : Utils.M value A) (k : A -> Utils.M value B) :
  Utils.raises_only_missing value df m ->
  (forall a, Utils.raises_only_missing value df (k a)) ->
  Utils.raises_only_missing value df (Utils.bind value m k).
Proof.
  intros Hm Hk. destruct m as [l [a|e]].
  - rewrite bind_ok. exact (Hk a).
  - intros e' H. apply (Hm e'). simpl in *. congruence.
Qed.

Lemma getitem_raises_only_missing (df df' : Utils.DataFrame value)
  (c : string) :
  In c Utils.required_columns ->
  (lookup c df' = None -> lookup c df = None) ->
  Utils.raises_only_missing value df (Utils.getitem value df' c).
Proof.
  intros Hin Hsub e H. unfold Utils.getitem, Utils.emit in H.
  rewrite bind_ok in H. destruct (lookup c df') eqn:E.
  - discriminate.
  - simpl in H. injection H as <-. exists c. auto.
Qed.

Lemma emit_raises_only_missing (df : Utils.DataFrame value)
  (e : Utils.effect value) :
  Utils.raises_only_missing value df (Utils.emit value e).
Proof. intros e' H. discriminate. Qed.

Lemma ret_raises_only_missing {A : Type} (df : Utils.DataFrame value)
  (a : A) :
  Utils.raises_only_missing value df (Utils.ret value a).
Proof. intros e' H. discriminate. Qed.

Lemma bind_shown_only_on_return {A B : Type} (m : Utils.M value A)
  (k : A -> Utils.M value B) :
  Utils.not_shown value m ->
  (forall a, Utils.shown_only_on_return value (k a)) ->
  Utils.shown_only_on_return value (Utils.bind value m k).
Proof.
  intros Hm Hk. destruct m as [l [a|e]].
  - rewrite bind_ok. intros H. simpl in H. apply in_app_or in H.
    destruct H as [H|H]; [contradiction (Hm H)|]. exact (Hk a H).
  - intros H. contradiction (Hm H).
Qed.

Lemma getitem_not_shown (df : Utils.DataFrame value) (c : string) :
  Utils.not_shown value (Utils.getitem value df c).
Proof.
  unfold Utils.getitem, Utils.emit, Utils.not_shown. rewrite bind_ok.
  destruct (lookup c df); simpl; intros [H|[]]; discriminate.
Qed.

Lemma lookup_loc_none (df : Utils.DataFrame value) (mask : list bool)
  (c : string) :
  lookup c (loc df mask) = None -> lookup c df = None.
Proof.
  rewrite lookup_loc. destruct (lookup c df); [discriminate | reflexivity].
Qed.

Lemma emit_not_shown (call : string) :
  call <> "plt.show"%string ->
  Utils.not_shown value (Utils.emit value (Utils.Chart value call)).
Proof.
  intros Hne [H|[]]. injection H as H. contradiction.
Qed.

Lemma bind_returns_shows {A B : Type} (m : Utils.M value A)
  (k : A -> Utils.M value B) :
  (forall a, Utils.returns value (k a) ->
             In (Utils.Chart value "plt.show") (fst (k a))) ->
  Utils.returns value (Utils.bind value m k) ->
  In (Utils.Chart value "plt.show") (fst (Utils.bind value m k)).
Proof.
  intros Hk. destruct m as [l [a|e]].
  - rewrite bind_ok. simpl. intros H. apply in_or_app. right.
    apply Hk, H.
  - intros [b H]. discriminate.
Qed.

Lemma bind_not_shown {A B : Type} (m : Utils.M value A)
  (k : A -> Utils.M value B) :
  Utils.not_shown value m ->
  (forall a, Utils.not_shown value (k a)) ->
  Utils.not_shown value (Utils.bind value m k).
Proof.
  intros Hm Hk. destruct m as [l [a|e]].
  - rewrite bind_ok. intros H. simpl in H. apply in_app_or in H.
    destruct H as [H|H]; [exact (Hm H) | exact (Hk a H)].
  - exact Hm.
Qed.

Ltac chain_missing :=
  repeat first
    [ apply emit_raises_only_missing
    | apply ret_raises_only_missing
    | apply getitem_raises_only_missing;
        [simpl; tauto | first [tauto | apply lookup_loc_none]]
    | apply bind_raises_only_missing; [|intros ?] ].

Ltac chain_raises :=
  repeat first
    [ apply bind_raises_l;
        solve [ apply getitem_missing; assumption
              | apply getitem_loc_missing; assumption ]
    | apply bind_raises_r; intros ? ].

Ltac chain_shown :=
  repeat first
    [ apply bind_shown_only_on_return;
        [ first [ apply getitem_not_shown
                | apply emit_not_shown; discriminate
                | intros [H|[]]; discriminate ]
        | intros ? ] ].

Ltac chain_shows := repeat (apply bind_returns_shows; intros ?).

(** ** The columns the chart needs *)

(** With an accepted label, the function returns exactly when the table has
    the five columns Availability, Accuracy, Avg Reward, Success Rate (%)
    and Avg Learning Speed; otherwise it raises [KeyError] for one of them
    that is missing; and [plt.show()] is called exactly when it returns, so
    a chart begun before a missing column is met is never shown. *)
Theorem plot_needs_its_columns
  (availability : value) (df : Utils.DataFrame value)
  (baseline : value * value * value)
  (accuracies : option (list value)) (algorithm : string) :
  Utils.known_algorithm algorithm ->
  let m := plot availability df baseline accuracies algorithm in
  (Utils.returns value m <->
   forall c, In c Utils.required_columns -> lookup c df <> None) /\
  Utils.raises_only_missing value df m /\
  (In (Utils.Chart value "plt.show") (fst m) <-> Utils.returns value m).
Proof.
  intros Hk m. apply known_algorithm_iff in Hk. subst m.
  destruct baseline as [[b1 b2] b3].
  eassert (Heq : plot availability df (b1, b2, b3) accuracies algorithm = _).
  { unfold Utils.plot_comparison_with_baseline. rewrite Hk.
    unfold Utils.ret at 1. rewrite bind_ok. cbn [app].
    rewrite <- surjective_pairing. cbn beta iota. reflexivity. }
  rewrite Heq. clear Heq.
  match goal with |- (Utils.returns value ?X <-> _) /\ _ => set (m := X) end.
  assert (Honly : Utils.raises_only_missing value df m).
  { subst m. apply bind_raises_only_missing.
    - destruct accuracies; chain_missing.
    - intros acc. chain_missing. }
  split; [|split; [exact Honly|]].
  - split.
    + intros [u Hu] c Hc Hnone.
      assert (Hr : Utils.raises value m).
      { subst m. simpl in Hc.
        destruct accuracies;
          decompose [or] Hc; try contradiction; subst c; chain_raises. }
      destruct Hr as [e He]. congruence.
    + intros Hall. destruct (snd m) as [[]|e] eqn:E.
      * exists tt. exact E.
      * destruct (Honly e E) as (c & _ & Hc & Hnone).
        contradiction (Hall c Hc Hnone).
  - split.
    + subst m. apply bind_shown_only_on_return.
      * destruct accuracies; [intros []|].
        apply bind_not_shown; [apply getitem_not_shown | intros col []].
      * intros acc. chain_shown. intros _. exists tt. reflexivity.
    + subst m. chain_shows. intros _. left. reflexivity.
Qed.

(** ** What the chart shows *)

Lemma in_bind_getitem {B : Type} (df : Utils.DataFrame value) (c : string)
  (col : list value) (k : list value -> Utils.M value B)
  (e : Utils.effect value) :
  lookup c df = Some col ->
  In e (fst (k col)) ->
  In e (fst (Utils.bind value (Utils.getitem value df c) k)).
Proof.
  intros H Hin. rewrite (getitem_present df c col H), bind_ok.
  simpl. right. exact Hin.
Qed.

Lemma in_bind_getitem_loc {B : Type} (df : Utils.DataFrame value)
  (mask : list bool) (c : string) (col : list value)
  (k : list value -> Utils.M value B) (e : Utils.effect value) :
  lookup c df = Some col ->
  In e (fst (k (keep mask col))) ->
  In e (fst (Utils.bind value (Utils.getitem value (loc df mask) c) k)).
Proof.
  intros H Hin. rewrite (getitem_loc_present df mask c col H), bind_ok.
  simpl. right. exact Hin.
Qed.

Lemma in_bind_emit {B : Type} (x e : Utils.effect value)
  (k : unit -> Utils.M value B) :
  In e (fst (k tt)) ->
  In e (fst (Utils.bind value (Utils.emit value x) k)).
Proof.
  intros Hin. unfold Utils.emit. rewrite bind_ok. simpl. right. exact Hin.
Qed.

Lemma in_bind_emit_here {B : Type} (e : Utils.effect value)
  (k : unit -> Utils.M value B) :
  In e (fst (Utils.bind value (Utils.emit value e) k)).
Proof. unfold Utils.emit. rewrite bind_ok. simpl. left. reflexivity. Qed.

Lemma snd_bind_getitem {B : Type} (df : Utils.DataFrame value) (c : string)
  (col : list value) (k : list value -> Utils.M value B) (r : result B) :
  lookup c df = Some col ->
  snd (k col) = r ->
  snd (Utils.bind value (Utils.getitem value df c) k) = r.
Proof.
  intros H Hr. rewrite (getitem_present df c col H), bind_ok. exact Hr.
Qed.

Lemma snd_bind_getitem_loc {B : Type} (df : Utils.DataFrame value)
  (mask : list bool) (c : string) (col : list value)
  (k : list value -> Utils.M value B) (r : result B) :
  lookup c df = Some col ->
  snd (k (keep mask col)) = r ->
  snd (Utils.bind value (Utils.getitem value (loc df mask) c) k) = r.
Proof.
  intros H Hr. rewrite (getitem_loc_present df mask c col H), bind_ok.
  exact Hr.
Qed.

Lemma snd_bind_emit {B : Type} (x : Utils.effect value)
  (k : unit -> Utils.M value B) (r : result B) :
  snd (k tt) = r ->
  snd (Utils.bind value (Utils.emit value x) k) = r.
Proof. intros Hr. unfold Utils.emit. rewrite bind_ok. exact Hr. Qed.

Lemma bind_ret_l {A B : Type} (a : A) (k : A -> Utils.M value B) :
  Utils.bind value (Utils.ret value a) k = k a.
Proof.
  unfold Utils.ret. rewrite bind_ok. simpl. symmetry.
  apply surjective_pairing.
Qed.

Lemma bind_assoc {A B C : Type} (m : Utils.M value A)
  (f : A -> Utils.M value B) (k : B -> Utils.M value C) :
  Utils.bind value (Utils.bind value m f) k =
    Utils.bind value m (fun a => Utils.bind value (f a) k).
Proof.
  destruct m as [l [a|e]]; [|reflexivity].
  rewrite !bind_ok. destruct (f a) as [l' [b|e']].
  - cbn [fst snd]. rewrite !bind_ok. cbn [fst snd].
    rewrite app_assoc. reflexivity.
  - reflexivity.
Qed.

Ltac walk_result :=
  repeat (first
    [ rewrite bind_ret_l
    | eapply snd_bind_getitem; [eassumption|]
    | eapply snd_bind_getitem_loc; [eassumption|]
    | apply snd_bind_emit ]; cbv beta).

Ltac walk_to_effect :=
  repeat (first
    [ rewrite bind_ret_l
    | apply in_bind_emit_here
    | eapply in_bind_getitem; [eassumption|]
    | eapply in_bind_getitem_loc; [eassumption|]
    | apply in_bind_emit ]; cbv beta).

(** The part of the function after the label check and the choice of the
    accuracies: with all five columns present it returns, and the three
    lines are drawn over the rows that [row_mask] keeps. *)
Lemma plot_lines
  (availability : value) (df : Utils.DataFrame value)
  (b1 b2 b3 : value) (accuracies : option (list value)) (algorithm : string)
  (avail acc rew suc spd : list value) :
  Utils.known_algorithm algorithm ->
  lookup "Availability" df = Some avail ->
  lookup "Accuracy" df = Some acc ->
  lookup "Avg Reward" df = Some rew ->
  lookup "Success Rate (%)" df = Some suc ->
  lookup "Avg Learning Speed" df = Some spd ->
  let mask :=
    Utils.row_mask value value_eqb availability
      match accuracies with
      | Some l => l
      | None => Utils.unique value value_eqb acc
      end avail acc in
  let m := plot availability df (b1, b2, b3) accuracies algorithm in
  snd m = Ok tt /\
  In (Utils.PlotLine value "ax1" (keep mask acc) (keep mask rew)) (fst m) /\
  In (Utils.PlotLine value "ax2" (keep mask acc) (keep mask suc)) (fst m) /\
  In (Utils.PlotLine value "ax3" (keep mask acc) (keep mask spd)) (fst m) /\
  In (Utils.Ticks value (keep mask acc)) (fst m).
Proof.
  intros Hk Hav Hacc Hrew Hsuc Hspd mask m. apply known_algorithm_iff in Hk.
  subst m mask. unfold Utils.plot_comparison_with_baseline. rewrite Hk.
  rewrite bind_ret_l. cbn beta iota. unfold Utils.row_mask.
  destruct accuracies as [l|].
  - rewrite bind_ret_l. cbv beta.
    split; [walk_result; reflexivity|].
    repeat split; walk_to_effect.
  - rewrite bind_assoc.
    split; [walk_result; reflexivity|].
    repeat split; walk_to_effect.
Qed.

Lemma isin_unique (l : list value) (c : value) :
  Utils.eqb_equivalence value value_eqb ->
  In c l ->
  Utils.isin value value_eqb c (Utils.unique value value_eqb l) = true.
Proof.
  intros (Hrefl & Hsym & Htrans). unfold Utils.isin.
  induction l as [|v l IH]; intros Hin; [contradiction|].
  simpl. destruct (value_eqb c v) eqn:Ecv; [reflexivity|]. simpl.
  destruct Hin as [->|Hin]; [rewrite Hrefl in Ecv; discriminate|].
  specialize (IH Hin). apply existsb_exists in IH.
  destruct IH as (u & Hu & Hcu). apply existsb_exists. exists u.
  split; [|exact Hcu]. apply filter_In. split; [exact Hu|].
  destruct (value_eqb v u) eqn:Evu; [|reflexivity].
  rewrite (Htrans c u v Hcu (Hsym v u Evu)) in Ecv. discriminate.
Qed.

Lemma row_mask_unique (availability : value) (avail acc : list value) :
  Utils.eqb_equivalence value value_eqb ->
  Utils.row_mask value value_eqb availability
    (Utils.unique value value_eqb acc) avail acc =
  Utils.availability_mask value value_eqb availability avail acc.
Proof.
  intros Heq. unfold Utils.row_mask, Utils.availability_mask.
  apply map_ext_in. intros [a c] Hin.
  rewrite (isin_unique acc c Heq (in_combine_r _ _ _ _ Hin)).
  apply andb_true_r.
Qed.

Lemma keep_none (mask : list bool) (col : list value) :
  (forall b, In b mask -> b = false) -> keep mask col = [].
Proof.
  revert col. induction mask as [|b mask IH]; intros col H; [reflexivity|].
  destruct col as [|v col]; [reflexivity|]. simpl.
  rewrite (H b (or_introl eq_refl)). apply IH.
  intros b' Hb'. apply H. right. exact Hb'.
Qed.

Lemma row_mask_none (availability : value) (accs avail acc : list value) :
  (forall a, In a avail -> value_eqb a availability = false) ->
  forall b, In b (Utils.row_mask value value_eqb availability accs avail acc)
            -> b = false.
Proof.
  intros H b Hb. unfold Utils.row_mask in Hb. apply in_map_iff in Hb.
  destruct Hb as ([a c] & <- & Hin).
  rewrite (H a (in_combine_l _ _ _ _ Hin)). reflexivity.
Qed.

(** When no accuracies are passed and the cells compare as an equality,
    the accuracy filter keeps everything: with the five columns present the
    function returns, and the three lines and the ticks are drawn over
    exactly the rows whose availability equals the one asked for. *)
Theorem plot_without_accuracies_shows_every_row
  (availability : value) (df : Utils.DataFrame value)
  (b1 b2 b3 : value) (algorithm : string)
  (avail acc rew suc spd : list value) :
  Utils.eqb_equivalence value value_eqb ->
  Utils.known_algorithm algorithm ->
  lookup "Availability" df = Some avail ->
  lookup "Accuracy" df = Some acc ->
  lookup "Avg Reward" df = Some rew ->
  lookup "Success Rate (%)" df = Some suc ->
  lookup "Avg Learning Speed" df = Some spd ->
  let mask :=
    Utils.availability_mask value value_eqb availability avail acc in
  let m := plot availability df (b1, b2, b3) None algorithm in
  snd m = Ok tt /\
  In (Utils.PlotLine value "ax1" (keep mask acc) (keep mask rew)) (fst m) /\
  In (Utils.PlotLine value "ax2" (keep mask acc) (keep mask suc)) (fst m) /\
  In (Utils.PlotLine value "ax3" (keep mask acc) (keep mask spd)) (fst m) /\
  In (Utils.Ticks value (keep mask acc)) (fst m).
Proof.
  intros Heq Hk Hav Hacc Hrew Hsuc Hspd mask m. subst mask m.
  rewrite <- (row_mask_unique availability avail acc Heq).
  apply (plot_lines availability df b1 b2 b3 None algorithm
           avail acc rew suc spd Hk Hav Hacc Hrew Hsuc Hspd).
Qed.

(** When no row of the table has the availability asked for, the function
    raises nothing: with the five columns present it returns after drawing
    three empty lines and no ticks, whatever accuracies were passed. *)
Theorem plot_no_matching_row_is_empty_chart
  (availability : value) (df : Utils.DataFrame value)
  (b1 b2 b3 : value) (accuracies : option (list value)) (algorithm : string)
  (avail acc rew suc spd : list value) :
  Utils.known_algorithm algorithm ->
  lookup "Availability" df = Some avail ->
  lookup "Accuracy" df = Some acc ->
  lookup "Avg Reward" df = Some rew ->
  lookup "Success Rate (%)" df = Some suc ->
  lookup "Avg Learning Speed" df = Some spd ->
  (forall a, In a avail -> value_eqb a availability = false) ->
  let m := plot availability df (b1, b2, b3) accuracies algorithm in
  snd m = Ok tt /\
  In (Utils.PlotLine value "ax1" [] []) (fst m) /\
  In (Utils.PlotLine value "ax2" [] []) (fst m) /\
  In (Utils.PlotLine value "ax3" [] []) (fst m) /\
  In (Utils.Ticks value []) (fst m).
Proof.
  intros Hk Hav Hacc Hrew Hsuc Hspd Hnone m. subst m.
  pose proof (plot_lines availability df b1 b2 b3 accuracies algorithm
                avail acc rew suc spd Hk Hav Hacc Hrew Hsuc Hspd) as H.
  cbv zeta in H.
  rewrite !(keep_none _ _ (row_mask_none availability _ avail acc Hnone))
    in H.
  exact H.
Qed.

End PlotColumns.

Lemma z_eqb_equivalence : Utils.eqb_equivalence Z Z.eqb.
Proof.
  repeat split.
  - apply Z.eqb_refl.
  - intros v w H. apply Z.eqb_eq in H. subst. apply Z.eqb_refl.
  - intros u v w H1 H2. apply Z.eqb_eq in H1, H2. subst. apply Z.eqb_refl.
Qed.

Lemma plot_needs_its_columns_witness :
  snd (Utils.plot_comparison_with_baseline Z Z.eqb 8
         (firstn 3 Utils.sample_table) (1, 2, 3) (Some [2]) "Q-learning") =
    Raise (KeyError "Success Rate (%)") /\
  ~ In (Utils.Chart Z "plt.show")
      (fst (Utils.plot_comparison_with_baseline Z Z.eqb 8
              (firstn 3 Utils.sample_table) (1, 2, 3) (Some [2])
              "Q-learning")).
Proof.
  destruct (plot_needs_its_columns Z Z.eqb 8 (firstn 3 Utils.sample_table)
              (1, 2, 3) (Some [2]) "Q-learning") as (_ & _ & Hshow).
  - left. reflexivity.
  - split; [reflexivity|]. intros H. apply Hshow in H.
    destruct H as [u Hu]. discriminate.
Defined.

Lemma plot_without_accuracies_shows_every_row_witness :
  snd (Utils.plot_comparison_with_baseline Z Z.eqb 8 Utils.sample_table
         (1, 2, 3) None "SARSA") = Ok tt /\
  In (Utils.PlotLine Z "ax1" [1; 2] [10; 20])
     (fst (Utils.plot_comparison_with_baseline Z Z.eqb 8 Utils.sample_table
             (1, 2, 3) None "SARSA")).
Proof.
  destruct (plot_without_accuracies_shows_every_row Z Z.eqb 8
              Utils.sample_table 1 2 3 "SARSA"
              [8; 8; 5] [1; 2; 1] [10; 20; 30] [50; 60; 70] [3; 4; 5])
    as (H1 & H2 & _).
  - apply z_eqb_equivalence.
  - right. reflexivity.
  - reflexivity.
  - reflexivity.
  - reflexivity.
  - reflexivity.
  - reflexivity.
  - split; [exact H1 | exact H2].
Defined.

Lemma plot_no_matching_row_is_empty_chart_witness :
  snd (Utils.plot_comparison_with_baseline Z Z.eqb 7 Utils.sample_table
         (1, 2, 3) (Some [1; 2]) "Q-learning") = Ok tt /\
  In (Utils.PlotLine Z "ax1" [] [])
     (fst (Utils.plot_comparison_with_baseline Z Z.eqb 7 Utils.sample_table
             (1, 2, 3) (Some [1; 2]) "Q-learning")).
Proof.
  destruct (plot_no_matching_row_is_empty_chart Z Z.eqb 7
              Utils.sample_table 1 2 3 (Some [1; 2]) "Q-learning"
              [8; 8; 5] [1; 2; 1] [10; 20; 30] [50; 60; 70] [3; 4; 5])
    as (H1 & H2 & _).
  - left. reflexivity.
  - reflexivity.
  - reflexivity.
  - reflexivity.
  - reflexivity.
  - reflexivity.
  - intros a [<-|[<-|[<-|[]]]]; reflexivity.
  - split; [exact H1 | exact H2].
Defined.
